(** * TestBackend: the test-harness builder of backend-test-utils

    A shallow embedding of
    [packages/backend-test-utils/src/next/wiring/TestBackend.ts].

    The file under study is orchestration code: it builds a list of service
    factories, hands it to the backend framework, starts the backend and
    keeps track of what has to be stopped after the tests.  The embedding
    follows the source statement by statement:

    - JavaScript values are a small inductive universe; a closure is its
      code together with the variables it captured (here: the cell of the
      local variable [server]);
    - the local variable [server] of [startTestBackend] lives in a heap of
      cells, one cell per call, because three closures created by a call
      share it;
    - the module-level variables [backendInstancesToCleanUp] and
      [registered] are fields of the state of the module;
    - asynchronous code is run to completion in program order (one thread),
      a rejected promise is a thrown error; the callbacks that the teardown
      hook runs side by side are each resumed when its own promise settles,
      in an order that is the framework's;
    - every call that leaves the file and has an effect (the http server,
      the lifecycle service, the backend framework, jest, the console) is
      answered by a collaborator that is a parameter of the development,
      and is recorded in a log; objects that are only built and passed on
      (the express application, the middleware, the child logger) are
      data. *)

From Stdlib Require Import ZArith NArith List Lia.
From stdpp Require Import base option list strings pretty gmap.

(** ** JavaScript values *)

(** References to objects that live outside this file. *)
Inductive RootHttpRouter := Router (handle : nat).
Inductive ExtendedHttpServer := HttpServer (handle : nat).
Inductive Backend := BackendRef (handle : nat).

(** The cell of one [let server] declaration. *)
Definition loc := nat.

(** The object handed to [new ConfigReader(...)] at line 167:
    [{ backend: { baseUrl, listen: { port } } }]. *)
Record ConfigData := {
  backend_baseUrl : string;
  backend_listen_port : N;
}.

Inductive ConfigReader := NewConfigReader (data : ConfigData).

(** Modelled from the spec: [SingleHostDiscovery] is a class of
    backend-common, whose code is not part of the file; the spec says that
    the discovery is "scoped to" the base URL and listen port of the
    configuration it is built from, so an instance is the configuration it
    was built from. *)
Record SingleHostDiscovery := {
  discovery_baseUrl : string;
  discovery_listen_port : N;
}.

Definition SingleHostDiscovery_fromConfig (config : ConfigReader) : SingleHostDiscovery :=
  match config with
  | NewConfigReader data =>
      {| discovery_baseUrl := backend_baseUrl data;
         discovery_listen_port := backend_listen_port data |}
  end.

(** Values and functions.  A function value is a closure: the constructor
    names the code, its arguments are the captured variables. *)
#[warnings="-register-all"]
Inductive JsValue :=
| JsUndefined
| JsNumber (n : Z)
| JsString (s : string)
| JsObject (fields : list (string * JsValue))
| JsService (handle : nat)            (* an instance owned by the framework *)
| JsRouter (router : RootHttpRouter)
| JsDiscovery (discovery : SingleHostDiscovery)
| JsFunction (f : Fn)
with Fn :=
| AsyncConst (value : JsValue)        (* [async () => value] *)
| RootHttpRouterFn (server : loc)     (* lines 125-153, closing over [server] *)
| DiscoveryFn (server : loc)          (* lines 161-172, closing over [server] *)
| ForeignFn (code : nat).             (* a function written outside this file *)

(** The argument of a factory function: the resolved dependencies, by name. *)
Definition Deps := list (string * JsValue).

Fixpoint deps_get (name : string) (deps : Deps) : JsValue :=
  match deps with
  | [] => JsUndefined
  | (k, v) :: rest => if String.eqb k name then v else deps_get name rest
  end.

(** ** Service references and factories *)

Record ServiceRef := {
  ref_id : string;
  ref_scope : string;      (* ['root'] or ['plugin'] *)
}.

Record ExtensionPoint := { extension_id : string }.

Record ServiceFactory := {
  service : ServiceRef;
  deps : list (string * ServiceRef);
  factory : Fn;
}.

(** Modelled from the spec: [createServiceFactory] belongs to
    backend-plugin-api.  The file calls its result with no argument to get
    the factory object (lines 185 and 191), so it returns a function; the
    spec calls the outcome "a factory" for the given reference,
    dependencies and factory function. *)
Definition createServiceFactory (config : ServiceFactory) : unit -> ServiceFactory :=
  fun _ => {| service := service config; deps := deps config; factory := factory config |}.

(** One entry of [options.services] (lines 55-62). *)
Inductive ServiceDef :=
| DefTuple (ref : ServiceRef) (impl : JsValue)       (* [[ref, impl]] *)
| DefFunction (f : unit -> ServiceFactory)          (* [() => ServiceFactory] *)
| DefFactory (f : ServiceFactory).

(** What [createSpecializedBackend] accepts as a service: the file passes
    factory objects ([...factories]) and the two uncalled results of
    [createServiceFactory] (line 207). *)
Inductive ServiceFactoryOrFunction :=
| AsFactory (f : ServiceFactory)
| AsFunction (f : unit -> ServiceFactory).

Inductive BackendFeature :=
| UserFeature (handle : nat)
| TestExtensionPointRegistrar (extensionPoints : list (ExtensionPoint * JsValue)).

Record TestBackendOptions := {
  opt_services : option (list ServiceDef);
  opt_extensionPoints : option (list (ExtensionPoint * JsValue));
  opt_features : option (list BackendFeature);
}.

(** [Object.assign(backend, { get server() {...} })] reads the getter of the
    source object and stores what it returned on [backend] (Object.assign
    uses Get on the source and Set on the target): the result carries the
    handle. *)
Record TestBackend := {
  tb_backend : Backend;
  tb_server : ExtendedHttpServer;
}.

(** ** Override normalizer (lines 175-197) *)

Definition normalizeServiceDef (serviceDef : ServiceDef) : ServiceFactory :=
  match serviceDef with
  | DefTuple ref impl =>
      if String.eqb (ref_scope ref) "plugin" then
        createServiceFactory
          {| service := ref; deps := [];
             factory := AsyncConst (JsFunction (AsyncConst impl)) |} tt
      else
        createServiceFactory
          {| service := ref; deps := []; factory := AsyncConst impl |} tt
  | DefFunction f => f tt
  | DefFactory f => f
  end.

(** ** Default merger (lines 199-203) *)

(** [factories.some(f => f.service.id === factory.service.id)] *)
Definition some_same_id (factories : list ServiceFactory) (factory : ServiceFactory) : bool :=
  existsb (fun f => String.eqb (ref_id (service f)) (ref_id (service factory))) factories.

(** The loop over [defaultServiceFactories]; [factories.push] appends. *)
Definition addDefaults (defaults factories : list ServiceFactory) : list ServiceFactory :=
  fold_left
    (fun factories factory =>
       if negb (some_same_id factories factory) then factories ++ [factory]
       else factories)
    defaults factories.

(** The merged list of a call: lines 175-203 together. *)
Definition mergedFactories (defaults : list ServiceFactory) (services : list ServiceDef)
  : list ServiceFactory :=
  addDefaults defaults (map normalizeServiceDef services).

(** The words of the spec for the merger: the user list, followed by the
    defaults whose identifier does not occur in the user list, in the
    order of the default set. *)
Definition service_ids (factories : list ServiceFactory) : list string :=
  map (fun f => ref_id (service f)) factories.

Definition spec_merge (defaults user : list ServiceFactory) : list ServiceFactory :=
  user ++ filter (fun d => ref_id (service d) ∉ service_ids user) defaults.

(** ** Errors, outcomes and the log of outgoing calls *)

Record Error := {
  error_name : string;
  error_message : string;
}.

(** [new Error(message)] *)
Definition NewError (message : string) : Error :=
  {| error_name := "Error"; error_message := message |}.

(** What a template literal prints for an error, [`${error}`]:
    [Error.prototype.toString], which leaves out an empty name or an empty
    message together with the colon. *)
Definition error_to_string (e : Error) : string :=
  if String.eqb (error_name e) "" then error_message e
  else if String.eqb (error_message e) "" then error_name e
  else error_name e +:+ ": " +:+ error_message e.

Inductive Result (A : Type) :=
| Ok (a : A)
| Throw (e : Error).
Arguments Ok {A} a.
Arguments Throw {A} e.

(** Objects of express and of backend-app-api that the root http router
    factory builds and passes on; they are plain data here. *)
Inductive Logger := LoggerChild (parent : JsValue) (meta : list (string * string)).

Record MiddlewareFactory := {
  middleware_config : JsValue;
  middleware_logger : Logger;
}.

Inductive Handler :=
| RouterHandler (router : RootHttpRouter)     (* [router.handler()] *)
| NotFoundHandler (m : MiddlewareFactory)     (* [middleware.notFound()] *)
| ErrorHandler (m : MiddlewareFactory).       (* [middleware.error()] *)

(** An express application is the pipeline of what [app.use] received. *)
Definition App := list Handler.
Definition express : App := [].
Definition app_use (app : App) (h : Handler) : App := app ++ [h].

Record HttpServerOptions := {
  listen_host : string;
  listen_port : N;
}.

(** The function of the shutdown hook, [async fn() { await server.stop() }]
    (lines 144-146): it captures the cell of [server]. *)
Inductive HookFn := StopServerFn (server : loc).

Record ShutdownHook := {
  hook_fn : HookFn;
  hook_logger : Logger;
}.

(** The function given to [afterAll] (lines 249-260); it captures nothing
    but module-level variables. *)
Inductive TestHook := StopBackendsHook.

(** One entry per call that leaves the file, in program order. *)
Inductive Call :=
| CallRouterCreate
| CallCreateHttpServer (app : App) (options : HttpServerOptions) (logger : Logger)
| CallAddShutdownHook (lifecycle : JsValue) (hook : ShutdownHook)
| CallServerStart (s : ExtendedHttpServer)
| CallServerStop (s : ExtendedHttpServer)
| CallServerPort (s : ExtendedHttpServer)
| CallForeign (code : nat) (args : Deps)
| CallCreateSpecializedBackend (services : list ServiceFactoryOrFunction)
| CallBackendAdd (backend : Backend) (feature : BackendFeature)
| CallBackendStart (backend : Backend)
| CallBackendStop (backend : Backend)
| CallAfterAll (hook : TestHook)
| CallConsoleError (message : string).

(** ** Programs: state, thrown errors and the log *)

Definition Prog (S A : Type) : Type := S -> Result A * S * list Call.

Definition ret {S A} (a : A) : Prog S A := fun s => (Ok a, s, []).

Definition throw {S A} (e : Error) : Prog S A := fun s => (Throw e, s, []).

Definition bind {S A B} (m : Prog S A) (k : A -> Prog S B) : Prog S B :=
  fun s =>
    match m s with
    | (Ok a, s1, log1) => let '(r, s2, log2) := k a s1 in (r, s2, log1 ++ log2)
    | (Throw e, s1, log1) => (Throw e, s1, log1)
    end.

(** [try { m } catch (error) { handler error }] *)
Definition try_catch {S A} (m : Prog S A) (handler : Error -> Prog S A) : Prog S A :=
  fun s =>
    match m s with
    | (Ok a, s1, log1) => (Ok a, s1, log1)
    | (Throw e, s1, log1) => let '(r, s2, log2) := handler e s1 in (r, s2, log1 ++ log2)
    end.

(** Calling an async function gives a promise; the call itself never
    throws.  The promise is represented by the outcome it settles with. *)
Definition promise_of {S A} (m : Prog S A) : Prog S (Result A) :=
  fun s => let '(r, s1, log) := m s in (Ok r, s1, log).

(** [await promise] *)
Definition await {S A} (promise : Result A) : Prog S A :=
  match promise with
  | Ok a => ret a
  | Throw e => throw e
  end.

Definition gets {S A} (f : S -> A) : Prog S A := fun s => (Ok (f s), s, []).

Definition modify {S} (f : S -> S) : Prog S unit := fun s => (Ok tt, f s, []).

(** A call to a collaborator: logged, then answered by the collaborator. *)
Definition call_out {S A} (c : Call) (answer : S -> Result A * S) : Prog S A :=
  fun s => let '(r, s1) := answer s in (r, s1, [c]).

(** A program on a part of the state, run on the whole state. *)
Definition zoom {S T A} (get : T -> S) (set : S -> T -> T) (m : Prog S A) : Prog T A :=
  fun t => let '(r, s1, log) := m (get t) in (r, set s1 t, log).

Declare Scope prog_scope.
Delimit Scope prog_scope with prog.
Notation "x <- m ;; k" := (bind m (fun x => k))
  (at level 100, m at next level, right associativity) : prog_scope.
Notation "m ;; k" := (bind m (fun _ => k))
  (at level 100, right associativity) : prog_scope.
Local Open Scope prog_scope.

(** [for (const x of l) { body x }] *)
Fixpoint for_each {S A} (l : list A) (body : A -> Prog S unit) : Prog S unit :=
  match l with
  | [] => ret tt
  | x :: rest => body x ;; for_each rest body
  end.

(** [l.map(x => body x)] *)
Fixpoint map_each {S A B} (l : list A) (body : A -> Prog S B) : Prog S (list B) :=
  match l with
  | [] => ret []
  | x :: rest => y <- body x ;; ys <- map_each rest body ;; ret (y :: ys)
  end.

(** The order in which pending promises settle is not the program's.  It is
    given by [picks]: each pick is the position, among the promises still
    pending, of the one that settles next; a pick past the end is skipped,
    and when the picks run out the rest settles in the order of the
    list. *)
Fixpoint settling_order {A} (picks : list nat) (pending : list A) : list A :=
  match picks with
  | [] => pending
  | i :: rest =>
      match pending !! i with
      | Some p => p :: settling_order rest (delete i pending)
      | None => settling_order rest pending
      end
  end.

(** ** State *)

(** What code outside the module can reach: the state of the collaborators
    and, through the closures it is handed, the cells of [server]. *)
Record Fw (Ext : Type) := {
  ext : Ext;
  heap : gmap loc (option ExtendedHttpServer);
}.
Arguments ext {Ext} _.
Arguments heap {Ext} _.

(** The state of the module: the above, the next free cell, and the two
    module-level variables (lines 100 and 239). *)
Record World (Ext : Type) := {
  fw : Fw Ext;
  next_cell : loc;
  backendInstancesToCleanUp : list Backend;
  registered : bool;
}.
Arguments fw {Ext} _.
Arguments next_cell {Ext} _.
Arguments backendInstancesToCleanUp {Ext} _.
Arguments registered {Ext} _.

Definition set_ext {Ext} (e : Ext) (w : Fw Ext) : Fw Ext :=
  {| ext := e; heap := heap w |}.

Definition set_heap {Ext} (h : gmap loc (option ExtendedHttpServer)) (w : Fw Ext) : Fw Ext :=
  {| ext := ext w; heap := h |}.

Definition set_fw {Ext} (f : Fw Ext) (w : World Ext) : World Ext :=
  {| fw := f; next_cell := next_cell w;
     backendInstancesToCleanUp := backendInstancesToCleanUp w;
     registered := registered w |}.

Definition set_next_cell {Ext} (n : loc) (w : World Ext) : World Ext :=
  {| fw := fw w; next_cell := n;
     backendInstancesToCleanUp := backendInstancesToCleanUp w;
     registered := registered w |}.

Definition set_backendInstancesToCleanUp {Ext} (l : list Backend) (w : World Ext) : World Ext :=
  {| fw := fw w; next_cell := next_cell w;
     backendInstancesToCleanUp := l;
     registered := registered w |}.

Definition set_registered {Ext} (b : bool) (w : World Ext) : World Ext :=
  {| fw := fw w; next_cell := next_cell w;
     backendInstancesToCleanUp := backendInstancesToCleanUp w;
     registered := b |}.

(** The value of the variable in cell [l]; [None] is [undefined]. *)
Definition cell {Ext} (l : loc) (w : Fw Ext) : option ExtendedHttpServer :=
  match heap w !! l with
  | Some v => v
  | None => None
  end.

(** A collaborator that only touches its own state, as a step of [Fw]. *)
Definition on_ext {Ext A} (answer : Ext -> Result A * Ext) (w : Fw Ext) : Result A * Fw Ext :=
  let '(r, e) := answer (ext w) in (r, set_ext e w).

(** A collaborator that returns a value and does not throw. *)
Definition total {S A} (f : S -> A * S) (s : S) : Result A * S :=
  let '(a, s1) := f s in (Ok a, s1).

(** A collaborator that returns nothing and does not throw. *)
Definition effect {S} (f : S -> S) (s : S) : Result unit * S := (Ok tt, f s).

(** ** Collaborators *)

(** The service references of [coreServices] that the file names. *)
Record CoreServices := {
  cs_config : ServiceRef;
  cs_rootLifecycle : ServiceRef;
  cs_rootLogger : ServiceRef;
  cs_rootHttpRouter : ServiceRef;
  cs_discovery : ServiceRef;
}.

(** Everything the file imports or finds in the global scope, except the
    backend object.  None of it can reach a cell of [server]. *)
Record Externals := {
  Ext : Type;
  coreServices : CoreServices;
  (* line 85: the twelve factories built by the imported constructors *)
  defaultServiceFactories : list ServiceFactory;
  DefaultRootHttpRouter_create : Ext -> RootHttpRouter * Ext;
  createHttpServer :
    App -> HttpServerOptions -> Logger -> Ext -> Result ExtendedHttpServer * Ext;
  server_start : ExtendedHttpServer -> Ext -> Result unit * Ext;
  server_stop : ExtendedHttpServer -> Ext -> Result unit * Ext;
  server_port : ExtendedHttpServer -> Ext -> N;
  lifecycle_addShutdownHook : JsValue -> ShutdownHook -> Ext -> Ext;
  foreign_call : nat -> Deps -> Ext -> Result JsValue * Ext;
  (* [typeof afterAll === 'function'] *)
  afterAll_is_function : Ext -> bool;
  afterAll : TestHook -> Ext -> Ext;
  console_error : string -> Ext -> Ext;
}.

(** The backend object of backend-app-api.  Starting and stopping a backend
    runs the functions it was given (factories, shutdown hooks), so these
    two are steps of [Fw].  [stop_settling] is the order in which the
    promises of the [stop()] calls on the given backends settle, as picks
    for [settling_order]. *)
Record Framework (Ext : Type) := {
  createSpecializedBackend : list ServiceFactoryOrFunction -> Ext -> Result Backend * Ext;
  backend_add : Backend -> BackendFeature -> Ext -> Result unit * Ext;
  backend_start : Backend -> Fw Ext -> Result unit * Fw Ext;
  backend_stop : Backend -> Fw Ext -> Result unit * Fw Ext;
  stop_settling : list Backend -> Fw Ext -> list nat;
}.
Arguments createSpecializedBackend {Ext} _.
Arguments backend_add {Ext} _.
Arguments backend_start {Ext} _.
Arguments backend_stop {Ext} _.
Arguments stop_settling {Ext} _.

(** ** The closures of one call of [startTestBackend] *)

Section TestBackend.
Variable E : Externals.

(** Reading and writing the variable [server] of the call that owns cell [l]. *)
Definition read_server (l : loc) : Prog (Fw (Ext E)) (option ExtendedHttpServer) :=
  gets (cell l).

Definition write_server (l : loc) (s : ExtendedHttpServer) : Prog (Fw (Ext E)) unit :=
  modify (fun w => set_heap (<[l := Some s]> (heap w)) w).

(** A method call on [server]; on [undefined] it is a TypeError. *)
Definition server_method (l : loc) (name : string)
    (method : ExtendedHttpServer -> Prog (Fw (Ext E)) unit) : Prog (Fw (Ext E)) unit :=
  s <- read_server l ;;
  match s with
  | Some srv => method srv
  | None =>
      throw {| error_name := "TypeError";
               error_message :=
                 "Cannot read properties of undefined (reading '" +:+ name +:+ "')" |}
  end.

(** The function of the shutdown hook (lines 144-146). *)
Definition call_hook_fn (fn : HookFn) : Prog (Fw (Ext E)) unit :=
  match fn with
  | StopServerFn server =>
      server_method server "stop"
        (fun srv => call_out (CallServerStop srv) (on_ext (server_stop E srv)))
  end.

(** The factory function of [rootHttpRouterFactory] (lines 125-153). *)
Definition rootHttpRouterFactory_factory (server : loc) (args : Deps)
  : Prog (Fw (Ext E)) JsValue :=
  let config := deps_get "config" args in
  let lifecycle := deps_get "lifecycle" args in
  let rootLogger := deps_get "rootLogger" args in
  router <- call_out CallRouterCreate (on_ext (total (DefaultRootHttpRouter_create E))) ;;
  let logger := LoggerChild rootLogger [("service", "rootHttpRouter")] in
  let app := express in
  let middleware := {| middleware_config := config; middleware_logger := logger |} in
  let app := app_use app (RouterHandler router) in
  let app := app_use app (NotFoundHandler middleware) in
  let app := app_use app (ErrorHandler middleware) in
  let options := {| listen_host := ""; listen_port := 0 |} in
  created <- call_out (CallCreateHttpServer app options logger)
               (on_ext (createHttpServer E app options logger)) ;;
  write_server server created ;;
  let hook := {| hook_fn := StopServerFn server; hook_logger := logger |} in
  call_out (CallAddShutdownHook lifecycle hook)
    (on_ext (effect (lifecycle_addShutdownHook E lifecycle hook))) ;;
  server_method server "start"
    (fun srv => call_out (CallServerStart srv) (on_ext (server_start E srv))) ;;
  ret (JsRouter router).

(** The factory function of [discoveryFactory] (lines 161-172). *)
Definition discoveryFactory_factory (server : loc) (args : Deps)
  : Prog (Fw (Ext E)) JsValue :=
  s <- read_server server ;;
  match s with
  | None => throw (NewError "Test server not started yet")
  | Some srv =>
      port <- call_out (CallServerPort srv)
                (fun w => (Ok (server_port E srv (ext w)), w)) ;;
      let discovery :=
        SingleHostDiscovery_fromConfig
          (NewConfigReader
             {| backend_baseUrl := "http://localhost:" +:+ pretty port;
                backend_listen_port := port |}) in
      ret (JsFunction (AsyncConst (JsDiscovery discovery)))
  end.

(** Calling a function value. *)
Definition call (f : Fn) (args : Deps) : Prog (Fw (Ext E)) JsValue :=
  match f with
  | AsyncConst value => ret value
  | RootHttpRouterFn server => rootHttpRouterFactory_factory server args
  | DiscoveryFn server => discoveryFactory_factory server args
  | ForeignFn code => call_out (CallForeign code args) (on_ext (foreign_call E code args))
  end.

(** Lines 118-154 and 156-173: the two synthesized factories of the call
    whose variable [server] is the cell [server]. *)
Definition rootHttpRouterFactory (server : loc) : unit -> ServiceFactory :=
  createServiceFactory
    {| service := cs_rootHttpRouter (coreServices E);
       deps := [("config", cs_config (coreServices E));
                ("lifecycle", cs_rootLifecycle (coreServices E));
                ("rootLogger", cs_rootLogger (coreServices E))];
       factory := RootHttpRouterFn server |}.

Definition discoveryFactory (server : loc) : unit -> ServiceFactory :=
  createServiceFactory
    {| service := cs_discovery (coreServices E);
       deps := [("rootHttpRouter", cs_rootHttpRouter (coreServices E))];
       factory := DiscoveryFn server |}.

(** The getter [get server()] of lines 230-235. *)
Definition get_server (server : loc) : Prog (Fw (Ext E)) ExtendedHttpServer :=
  s <- read_server server ;;
  match s with
  | None => throw (NewError "TestBackend server is not available")
  | Some srv => ret srv
  end.

(** ** startTestBackend (lines 103-237) *)

Variable F : Framework (Ext E).

Definition in_fw {A} (m : Prog (Fw (Ext E)) A) : Prog (World (Ext E)) A :=
  zoom fw set_fw m.

(** [let server: ExtendedHttpServer;] (line 116): a new cell, holding
    [undefined]. *)
Definition declare_server : Prog (World (Ext E)) loc :=
  l <- gets next_cell ;;
  modify (fun w => set_next_cell (S l) (set_fw (set_heap (<[l := None]> (heap (fw w))) (fw w)) w)) ;;
  ret l.

(** The list given to [createSpecializedBackend] (line 207). *)
Definition composedServices (server : loc) (services : list ServiceDef)
  : list ServiceFactoryOrFunction :=
  map AsFactory (mergedFactories (defaultServiceFactories E) services)
    ++ [AsFunction (rootHttpRouterFactory server); AsFunction (discoveryFactory server)].

Definition startTestBackend (options : TestBackendOptions) : Prog (World (Ext E)) TestBackend :=
  let services := default [] (opt_services options) in
  let extensionPoints := default [] (opt_extensionPoints options) in
  let features := default [] (opt_features options) in
  server <- declare_server ;;
  let all := composedServices server services in
  backend <- in_fw (call_out (CallCreateSpecializedBackend all)
                      (on_ext (createSpecializedBackend F all))) ;;
  modify (fun w =>
    set_backendInstancesToCleanUp (backendInstancesToCleanUp w ++ [backend]) w) ;;
  (let registrar := TestExtensionPointRegistrar extensionPoints in
   in_fw (call_out (CallBackendAdd backend registrar)
            (on_ext (backend_add F backend registrar)))) ;;
  for_each features (fun feature =>
    in_fw (call_out (CallBackendAdd backend feature)
             (on_ext (backend_add F backend feature)))) ;;
  in_fw (call_out (CallBackendStart backend) (backend_start F backend)) ;;
  srv <- in_fw (get_server server) ;;
  ret {| tb_backend := backend; tb_server := srv |}.

(** The part of [startTestBackend] that comes before [backend.start()]
    (lines 109-225): the variable is declared, the backend is created and
    recorded, the registrar and the features are added.  It gives the
    variable and the backend to the rest of the function. *)
Definition startTestBackend_setup (options : TestBackendOptions)
  : Prog (World (Ext E)) (loc * Backend) :=
  let services := default [] (opt_services options) in
  let extensionPoints := default [] (opt_extensionPoints options) in
  let features := default [] (opt_features options) in
  server <- declare_server ;;
  let all := composedServices server services in
  backend <- in_fw (call_out (CallCreateSpecializedBackend all)
                      (on_ext (createSpecializedBackend F all))) ;;
  modify (fun w =>
    set_backendInstancesToCleanUp (backendInstancesToCleanUp w ++ [backend]) w) ;;
  (let registrar := TestExtensionPointRegistrar extensionPoints in
   in_fw (call_out (CallBackendAdd backend registrar)
            (on_ext (backend_add F backend registrar)))) ;;
  for_each features (fun feature =>
    in_fw (call_out (CallBackendAdd backend feature)
             (on_ext (backend_add F backend feature)))) ;;
  ret (server, backend).

(** The rest of [startTestBackend] (lines 227-236): the backend is started,
    and the result is built, which reads the accessor. *)
Definition startTestBackend_finish (server : loc) (backend : Backend)
  : Prog (World (Ext E)) TestBackend :=
  in_fw (call_out (CallBackendStart backend) (backend_start F backend)) ;;
  srv <- in_fw (get_server server) ;;
  ret {| tb_backend := backend; tb_server := srv |}.

(** ** Global teardown (lines 239-263) *)

(** The callback of [backendInstancesToCleanUp.map] (lines 251-257) is an
    async function: called by [map], it runs up to its [await], that is, it
    calls [backend.stop()] and is suspended on the promise. *)
Definition stopBackend_call (backend : Backend) : Prog (World (Ext E)) (Result unit) :=
  promise_of (in_fw (call_out (CallBackendStop backend) (backend_stop F backend))).

(** The rest of the callback, from the [await] on: a rejection is caught
    and printed. *)
Definition stopBackend_resume (stopped : Result unit) : Prog (World (Ext E)) unit :=
  try_catch (await stopped)
    (fun error =>
       let message := "Failed to stop backend after tests, " +:+ error_to_string error in
       in_fw (call_out (CallConsoleError message)
                (on_ext (effect (console_error E message))))).

(** The function given to [afterAll] (lines 249-260).  [map] starts the
    callbacks in the order of the array; each callback is resumed when the
    promise of its own [stop()] settles, in the order the framework gives;
    [Promise.all] waits for all of them (none rejects, every error is
    caught), and then the registry is emptied. *)
Definition call_test_hook (hook : TestHook) : Prog (World (Ext E)) unit :=
  match hook with
  | StopBackendsHook =>
      backends <- gets backendInstancesToCleanUp ;;
      pending <- map_each backends stopBackend_call ;;
      picks <- gets (fun w => stop_settling F backends (fw w)) ;;
      for_each (settling_order picks pending) stopBackend_resume ;;
      modify (set_backendInstancesToCleanUp [])
  end.

Definition registerTestHooks : Prog (World (Ext E)) unit :=
  present <- gets (fun w => afterAll_is_function E (ext (fw w))) ;;
  if negb present then ret tt
  else
    already <- gets registered ;;
    if already then ret tt
    else
      modify (set_registered true) ;;
      in_fw (call_out (CallAfterAll StopBackendsHook)
               (on_ext (effect (afterAll E StopBackendsHook)))).

(** The module when it has just been evaluated up to line 262: no cell, an
    empty registry, nothing registered. *)
Definition module_loaded (e : Ext E) : World (Ext E) :=
  {| fw := {| ext := e; heap := ∅ |};
     next_cell := 0;
     backendInstancesToCleanUp := [];
     registered := false |}.

(** [n] calls of [registerTestHooks] in a row. *)
Fixpoint repeat_registerTestHooks (n : nat) : Prog (World (Ext E)) unit :=
  match n with
  | 0 => ret tt
  | S k => registerTestHooks ;; repeat_registerTestHooks k
  end.

End TestBackend.

(** ** A simulated environment

    A small, executable instance of the collaborators, on which the program
    can be run: handles are numbered in the order of creation, a server with
    handle [n] listens on port [40000 + n], a backend instantiates all its
    services, in the order of the list, when it starts. *)

Record Sim := {
  sim_next : nat;                 (* the next handle *)
  sim_afterAll : bool;            (* the test runner is there *)
  sim_backends : list (nat * list ServiceFactoryOrFunction);
  sim_start_rejects : bool;       (* [backend.start()] rejects *)
  sim_stop_rejects : list nat;    (* backends whose [stop()] rejects *)
}.

Definition sim_tick (s : Sim) : Sim :=
  {| sim_next := S (sim_next s); sim_afterAll := sim_afterAll s;
     sim_backends := sim_backends s; sim_start_rejects := sim_start_rejects s;
     sim_stop_rejects := sim_stop_rejects s |}.

Definition sim_record (services : list ServiceFactoryOrFunction) (s : Sim) : Sim :=
  {| sim_next := S (sim_next s); sim_afterAll := sim_afterAll s;
     sim_backends := sim_backends s ++ [(sim_next s, services)];
     sim_start_rejects := sim_start_rejects s;
     sim_stop_rejects := sim_stop_rejects s |}.

Definition sim_ref (name scope : string) : ServiceRef :=
  {| ref_id := name; ref_scope := scope |}.

Definition sim_default (name scope : string) (code : nat) : ServiceFactory :=
  {| service := sim_ref name scope; deps := []; factory := ForeignFn code |}.

(** The default set: one factory per service the spec lists. *)
Definition sim_defaults : list ServiceFactory :=
  [ sim_default "core.cache" "plugin" 1;
    sim_default "core.database" "plugin" 2;
    sim_default "core.httpRouter" "plugin" 3;
    sim_default "core.lifecycle" "plugin" 4;
    sim_default "core.logger" "plugin" 5;
    sim_default "core.config" "root" 6;
    sim_default "core.tokenManager" "root" 7;
    sim_default "core.permissions" "plugin" 8;
    sim_default "core.rootLifecycle" "root" 9;
    sim_default "core.rootLogger" "root" 10;
    sim_default "core.scheduler" "plugin" 11;
    sim_default "core.urlReader" "plugin" 12 ].

Definition simE : Externals :=
  {| Ext := Sim;
     coreServices :=
       {| cs_config := sim_ref "core.config" "root";
          cs_rootLifecycle := sim_ref "core.rootLifecycle" "root";
          cs_rootLogger := sim_ref "core.rootLogger" "root";
          cs_rootHttpRouter := sim_ref "core.rootHttpRouter" "root";
          cs_discovery := sim_ref "core.discovery" "plugin" |};
     defaultServiceFactories := sim_defaults;
     DefaultRootHttpRouter_create := fun s => (Router (sim_next s), sim_tick s);
     createHttpServer := fun _ _ _ s => (Ok (HttpServer (sim_next s)), sim_tick s);
     server_start := fun _ s => (Ok tt, s);
     server_stop := fun _ s => (Ok tt, s);
     server_port := fun srv _ => match srv with HttpServer n => (40000 + N.of_nat n)%N end;
     lifecycle_addShutdownHook := fun _ _ s => s;
     foreign_call := fun code _ s => (Ok (JsService code), s);
     afterAll_is_function := sim_afterAll;
     afterAll := fun _ s => s;
     console_error := fun _ s => s |}.

Definition sim_deps : Deps :=
  [ ("config", JsService 6); ("lifecycle", JsService 9);
    ("rootLogger", JsService 10); ("rootHttpRouter", JsService 13) ].

(** Instantiate the services of a list, first to last. *)
Fixpoint sim_instantiate (services : list ServiceFactoryOrFunction) (w : Fw Sim)
  : Result unit * Fw Sim :=
  match services with
  | [] => (Ok tt, w)
  | entry :: rest =>
      let f := match entry with AsFactory f => f | AsFunction g => g tt end in
      match call simE (factory f) sim_deps w with
      | (Ok _, w1, _) => sim_instantiate rest w1
      | (Throw e, w1, _) => (Throw e, w1)
      end
  end.

Definition sim_services_of (handle : nat) (s : Sim) : list ServiceFactoryOrFunction :=
  match filter (fun entry => fst entry = handle) (sim_backends s) with
  | (_, services) :: _ => services
  | [] => []
  end.

Definition simF : Framework Sim :=
  {| createSpecializedBackend := fun services s =>
       (Ok (BackendRef (sim_next s)), sim_record services s);
     backend_add := fun _ _ s => (Ok tt, s);
     backend_start := fun backend w =>
       if sim_start_rejects (ext w) then (Throw (NewError "start rejected"), w)
       else match backend with
            | BackendRef n => sim_instantiate (sim_services_of n (ext w)) w
            end;
     backend_stop := fun backend w =>
       match backend with
       | BackendRef n =>
           if existsb (Nat.eqb n) (sim_stop_rejects (ext w))
           then (Throw (NewError "stop rejected"), w)
           else (Ok tt, w)
       end;
     stop_settling := fun _ _ => [] |}.

Definition sim_world (afterAll_present start_rejects : bool) (stop_rejects : list nat)
  : World Sim :=
  module_loaded simE
    {| sim_next := 0; sim_afterAll := afterAll_present; sim_backends := [];
       sim_start_rejects := start_rejects; sim_stop_rejects := stop_rejects |}.

(** The options [{}]. *)
Definition no_options : TestBackendOptions :=
  {| opt_services := None; opt_extensionPoints := None; opt_features := None |}.

(** ** Reading the outcome of a run *)

Definition result_of {S A} (out : Result A * S * list Call) : Result A := fst (fst out).
Definition state_of {S A} (out : Result A * S * list Call) : S := snd (fst out).
Definition log_of {S A} (out : Result A * S * list Call) : list Call := snd out.

(** The backends that received [stop()], in the order of the calls. *)
Definition stop_calls (log : list Call) : list Backend :=
  omap (fun c => match c with CallBackendStop b => Some b | _ => None end) log.

Definition is_server_start (c : Call) : bool :=
  match c with CallServerStart _ => true | _ => false end.

Definition is_addShutdownHook (c : Call) : bool :=
  match c with CallAddShutdownHook _ _ => true | _ => false end.

(** The index of the first entry of a log that satisfies [p]. *)
Fixpoint position (p : Call -> bool) (log : list Call) : option nat :=
  match log with
  | [] => None
  | c :: rest => if p c then Some 0 else S <$> position p rest
  end.



(** The errors of the rejections among outcomes. *)
Definition rejections {A} (outcomes : list (Result A)) : list Error :=
  omap (fun r => match r with Throw e => Some e | Ok _ => None end) outcomes.

(** What the teardown hook prints for a rejection. *)
Definition stop_failure_message (e : Error) : string :=
  "Failed to stop backend after tests, " +:+ error_to_string e.

(** The values of the module-level variables and of the cell counter. *)
Definition module_vars {Ext} (w : World Ext) : loc * list Backend * bool :=
  (next_cell w, backendInstancesToCleanUp w, registered w).

(** A program keeps the module-level variables. *)
Definition keeps_module_vars {Ext A} (m : Prog (World Ext) A) : Prop :=
  forall w, module_vars (state_of (m w)) = module_vars w.

Section Outcomes.
Variable E : Externals.
Variable F : Framework (Ext E).

(** How the [stop()] calls of a teardown over [backends] settle, in the
    order of the calls, when the teardown starts in [w]. *)
Fixpoint stop_outcomes (backends : list Backend) (w : Fw (Ext E)) : list (Result unit) :=
  match backends with
  | [] => []
  | backend :: rest =>
      let '(r, w1) := backend_stop F backend w in r :: stop_outcomes rest w1
  end.

End Outcomes.

Ltac run_prog :=
  cbv beta iota zeta delta
    [bind ret throw gets modify call_out zoom try_catch on_ext total effect
     promise_of await
     read_server write_server server_method in_fw
     set_ext set_heap set_fw set_next_cell set_backendInstancesToCleanUp
     set_registered]; cbn.

(** ** More of the simulated environment *)

(** The collaborators of [simE], with a [createHttpServer] or a
    [server.start()] that rejects. *)
Definition simE_rejecting (create_rejects start_rejects : bool) : Externals :=
  {| Ext := Sim;
     coreServices := coreServices simE;
     defaultServiceFactories := defaultServiceFactories simE;
     DefaultRootHttpRouter_create := DefaultRootHttpRouter_create simE;
     createHttpServer := fun app options logger s =>
       if create_rejects then (Throw (NewError "listen EACCES"), s)
       else createHttpServer simE app options logger s;
     server_start := fun srv s =>
       if start_rejects then (Throw (NewError "listen EADDRINUSE"), s)
       else server_start simE srv s;
     server_stop := server_stop simE;
     server_port := server_port simE;
     lifecycle_addShutdownHook := lifecycle_addShutdownHook simE;
     foreign_call := foreign_call simE;
     afterAll_is_function := afterAll_is_function simE;
     afterAll := afterAll simE;
     console_error := console_error simE |}.

(** A backend that instantiates no service when it starts. *)
Definition simF_lazy : Framework Sim :=
  {| createSpecializedBackend := createSpecializedBackend simF;
     backend_add := backend_add simF;
     backend_start := fun _ w => (Ok tt, w);
     backend_stop := backend_stop simF;
     stop_settling := stop_settling simF |}.

(** A backend whose [stop()] rejects with an error that names the backend,
    and whose promises settle in the order of [picks]. *)
Definition simF_settling (picks : list nat) : Framework Sim :=
  {| createSpecializedBackend := createSpecializedBackend simF;
     backend_add := backend_add simF;
     backend_start := backend_start simF;
     backend_stop := fun backend w =>
       match backend with
       | BackendRef n => (Throw (NewError ("backend " +:+ pretty n)), w)
       end;
     stop_settling := fun _ _ => picks |}.

(** ** The calls of a successful [startTestBackend] *)


(** Projections of an outcome that is given in full. *)
Ltac outs :=
  repeat (change (@result_of ?S ?A (?r, ?s, ?l)) with r
          || change (@state_of ?S ?A (?r, ?s, ?l)) with s
          || change (@log_of ?S ?A (?r, ?s, ?l)) with l);
  cbn [app].

(** A program leaves every cell of [server] as it is. *)
Definition keeps_cells {Ext A} (m : Prog (World Ext) A) : Prop :=
  forall w, heap (fw (state_of (m w))) = heap (fw w).

(** * Properties *)

(** ** The override normalizer *)

(** C1: the normalizer dispatches on the shape of the entry.  For a tuple
    [[ref, impl]] it builds a factory for [ref] with no dependency; when the
    scope of [ref] is ['plugin'] the factory function resolves to a function
    that, called with no argument, resolves to [impl]; for any other scope
    it resolves to [impl] itself.  A function entry is called with no
    argument and its result is the factory; any other entry is returned as
    it is. *)
Theorem normalizeServiceDef_by_shape (E : Externals) :
  (forall ref impl, ref_scope ref = "plugin" ->
     let f := normalizeServiceDef (DefTuple ref impl) in
     service f = ref /\ deps f = [] /\
     exists provider,
       (forall args w, call E (factory f) args w = (Ok (JsFunction provider), w, [])) /\
       (forall w, call E provider [] w = (Ok impl, w, [])))
  /\ (forall ref impl, ref_scope ref <> "plugin" ->
     let f := normalizeServiceDef (DefTuple ref impl) in
     service f = ref /\ deps f = [] /\
     (forall args w, call E (factory f) args w = (Ok impl, w, [])))
  /\ (forall g, normalizeServiceDef (DefFunction g) = g tt)
  /\ (forall f, normalizeServiceDef (DefFactory f) = f).
Proof.
  split; [| split; [| split]].
  - intros ref impl Hscope f. subst f. cbn. rewrite Hscope. cbn.
    split; [reflexivity | split; [reflexivity |]].
    exists (AsyncConst impl). split; reflexivity.
  - intros ref impl Hscope f. subst f. cbn.
    apply String.eqb_neq in Hscope. rewrite Hscope. cbn.
    split; [reflexivity | split; reflexivity].
  - reflexivity.
  - reflexivity.
Qed.

Lemma normalizeServiceDef_by_shape_witness :
  exists provider,
    (forall args w,
       call simE
         (factory (normalizeServiceDef
            (DefTuple (sim_ref "catalog.client" "plugin")
               (JsObject [("value", JsNumber 42)])))) args w
       = (Ok (JsFunction provider), w, [])) /\
    (forall w, call simE provider [] w = (Ok (JsObject [("value", JsNumber 42)]), w, [])).
Proof.
  apply (proj1 (normalizeServiceDef_by_shape simE)
           (sim_ref "catalog.client" "plugin") (JsObject [("value", JsNumber 42)])).
  reflexivity.
Defined.

(** ** The default merger *)

Lemma some_same_id_true factories factory :
  some_same_id factories factory = true <->
  ref_id (service factory) ∈ service_ids factories.
Proof.
  unfold some_same_id, service_ids.
  rewrite existsb_exists, list_elem_of_In, in_map_iff.
  split; intros [f [H1 H2]]; exists f.
  - apply String.eqb_eq in H2. auto.
  - split; [assumption | now apply String.eqb_eq].
Qed.

Lemma some_same_id_false factories factory :
  some_same_id factories factory = false <->
  ref_id (service factory) ∉ service_ids factories.
Proof.
  rewrite <- some_same_id_true. destruct (some_same_id factories factory); split; congruence.
Qed.

Lemma service_ids_app l k : service_ids (l ++ k) = service_ids l ++ service_ids k.
Proof. apply map_app. Qed.

(** One turn of the loop. *)
Lemma addDefaults_cons d defaults factories :
  addDefaults (d :: defaults) factories =
  addDefaults defaults
    (if negb (some_same_id factories d) then factories ++ [d] else factories).
Proof. reflexivity. Qed.

(** The loop only appends, and what it appends are defaults whose
    identifier the list did not have, in the order of the defaults. *)
Lemma addDefaults_extends defaults :
  forall factories, exists appended,
    addDefaults defaults factories = factories ++ appended /\
    sublist appended defaults /\
    (forall d, d ∈ appended ->
       d ∈ defaults /\ ref_id (service d) ∉ service_ids factories).
Proof.
  induction defaults as [| d defaults IH]; intros factories.
  - exists []. split; [now rewrite app_nil_r | split; [constructor | inversion 1]].
  - rewrite addDefaults_cons.
    destruct (some_same_id factories d) eqn:Hsome; cbn [negb].
    + destruct (IH factories) as (appended & Heq & Hsub & Hin).
      exists appended. split; [assumption | split; [now constructor |]].
      intros x Hx. destruct (Hin x Hx) as [Hx1 Hx2].
      split; [apply elem_of_cons; now right | assumption].
    + apply some_same_id_false in Hsome.
      destruct (IH (factories ++ [d])) as (appended & Heq & Hsub & Hin).
      exists (d :: appended). split; [| split; [now constructor |]].
      * rewrite Heq, <- app_assoc. reflexivity.
      * intros x Hx. apply elem_of_cons in Hx as [-> | Hx].
        -- split; [apply elem_of_cons; now left | assumption].
        -- destruct (Hin x Hx) as [Hx1 Hx2]. split; [apply elem_of_cons; now right |].
           intros Hn. apply Hx2. rewrite service_ids_app. apply elem_of_app. now left.
Qed.

(** The loop never introduces a second factory for an identifier. *)
Lemma addDefaults_NoDup defaults :
  forall factories,
    NoDup (service_ids factories) ->
    NoDup (service_ids (addDefaults defaults factories)).
Proof.
  induction defaults as [| d defaults IH]; intros factories Hnd; [assumption |].
  rewrite addDefaults_cons.
  destruct (some_same_id factories d) eqn:Hsome; cbn [negb].
  - apply IH. assumption.
  - apply IH. rewrite service_ids_app. apply NoDup_app.
    split; [assumption | split].
    + intros x Hx Hx'. cbn in Hx'. apply list_elem_of_singleton in Hx'. subst x.
      apply some_same_id_false in Hsome. contradiction.
    + cbn. apply NoDup_singleton.
Qed.

(** After the loop every default identifier is served. *)
Lemma addDefaults_covers defaults :
  forall factories d,
    d ∈ defaults ->
    ref_id (service d) ∈ service_ids (addDefaults defaults factories).
Proof.
  induction defaults as [| d0 defaults IH]; intros factories d Hd; [inversion Hd |].
  rewrite addDefaults_cons.
  apply elem_of_cons in Hd as [-> | Hd]; [| now apply IH].
  set (next := if negb (some_same_id factories d0) then factories ++ [d0] else factories).
  assert (Hnext : ref_id (service d0) ∈ service_ids next).
  { subst next. destruct (some_same_id factories d0) eqn:Hsome; cbn [negb].
    - now apply some_same_id_true.
    - rewrite service_ids_app. apply elem_of_app. right. cbn. apply list_elem_of_singleton.
      reflexivity. }
  destruct (addDefaults_extends defaults next) as (appended & Heq & _).
  rewrite Heq, service_ids_app. apply elem_of_app. now left.
Qed.

Lemma filter_agree {A} (P Q : A -> Prop)
    `{!forall x, Decision (P x), !forall x, Decision (Q x)} (l : list A) :
  (forall x, x ∈ l -> P x <-> Q x) -> filter P l = filter Q l.
Proof.
  induction l as [| a l IH]; intros Hiff; [reflexivity |].
  assert (Hl : forall x, x ∈ l -> P x <-> Q x).
  { intros x Hx. apply Hiff, elem_of_cons. now right. }
  assert (Ha : P a <-> Q a) by (apply Hiff, elem_of_cons; now left).
  destruct (decide (P a)) as [HP | HP].
  - rewrite !filter_cons_True by tauto. now rewrite IH.
  - rewrite !filter_cons_False by tauto. now rewrite IH.
Qed.

(** Against the current list: with distinct default identifiers, what the
    loop appends is the defaults filtered against the list it started
    from. *)
Lemma addDefaults_filter defaults :
  NoDup (service_ids defaults) ->
  forall factories,
    addDefaults defaults factories =
    factories ++ filter (fun d => ref_id (service d) ∉ service_ids factories) defaults.
Proof.
  induction defaults as [| d defaults IH]; intros Hnd factories.
  - cbn. now rewrite app_nil_r.
  - cbn [service_ids map] in Hnd. apply NoDup_cons in Hnd as [Hd Hnd].
    rewrite addDefaults_cons.
    destruct (some_same_id factories d) eqn:Hsome; cbn [negb].
    + apply some_same_id_true in Hsome.
      rewrite filter_cons_False by (intros Hn; contradiction).
      now apply IH.
    + apply some_same_id_false in Hsome.
      rewrite filter_cons_True by assumption.
      rewrite (IH Hnd (factories ++ [d])), <- app_assoc. cbn. do 2 f_equal.
      apply filter_agree. intros x Hx. rewrite service_ids_app, elem_of_app.
      cbn. rewrite list_elem_of_singleton.
      assert (Hne : ref_id (service x) <> ref_id (service d)).
      { intros Heq. apply Hd. rewrite <- Heq.
        apply list_elem_of_In, in_map_iff. exists x.
        split; [reflexivity | now apply list_elem_of_In]. }
      tauto.
Qed.

(** C2: the merger returns the user list, unchanged and in front, followed
    by defaults only, in the order of the default set, none of which has an
    identifier of the user list; given a default set with one factory per
    identifier, what follows the user list is exactly the defaults whose
    identifier does not occur in the user list. *)
Theorem addDefaults_appends_missing_defaults defaults user :
  (exists appended,
     addDefaults defaults user = user ++ appended /\
     sublist appended defaults /\
     (forall d, d ∈ appended -> ref_id (service d) ∉ service_ids user))
  /\ (NoDup (service_ids defaults) ->
      addDefaults defaults user = spec_merge defaults user).
Proof.
  split.
  - destruct (addDefaults_extends defaults user) as (appended & Heq & Hsub & Hin).
    exists appended. split; [assumption | split; [assumption |]].
    intros d Hd. now destruct (Hin d Hd).
  - intros Hnd. unfold spec_merge. now apply addDefaults_filter.
Qed.

Lemma addDefaults_appends_missing_defaults_witness :
  NoDup (service_ids sim_defaults) /\
  addDefaults sim_defaults
    [normalizeServiceDef (DefTuple (sim_ref "core.logger" "plugin") (JsString "silent"))]
  = spec_merge sim_defaults
      [normalizeServiceDef (DefTuple (sim_ref "core.logger" "plugin") (JsString "silent"))].
Proof.
  assert (Hnd : NoDup (service_ids sim_defaults)).
  { refine (bool_decide_unpack _ _). vm_compute. exact I. }
  split; [exact Hnd |].
  exact (proj2 (addDefaults_appends_missing_defaults sim_defaults _) Hnd).
Defined.

(** The merged list of the witness above: the user's logger first, the
    eleven other defaults behind it, in their order. *)
Example addDefaults_in_sim :
  service_ids (addDefaults sim_defaults
    [normalizeServiceDef (DefTuple (sim_ref "core.logger" "plugin") (JsString "silent"))])
  = ["core.logger"; "core.cache"; "core.database"; "core.httpRouter"; "core.lifecycle";
     "core.config"; "core.tokenManager"; "core.permissions"; "core.rootLifecycle";
     "core.rootLogger"; "core.scheduler"; "core.urlReader"].
Proof. reflexivity. Qed.

Lemma NoDup_map_inj {A B} (g : A -> B) (l : list A) x y :
  NoDup (map g l) -> x ∈ l -> y ∈ l -> g x = g y -> x = y.
Proof.
  induction l as [| a l IH]; intros Hnd Hx Hy Hg; [inversion Hx |].
  cbn in Hnd. apply NoDup_cons in Hnd as [Ha Hnd].
  assert (Hin : forall z, z ∈ l -> g z ∈ map g l).
  { intros z Hz. apply list_elem_of_In, in_map, list_elem_of_In. assumption. }
  apply elem_of_cons in Hx as [-> | Hx]; apply elem_of_cons in Hy as [-> | Hy].
  - reflexivity.
  - exfalso. apply Ha. rewrite Hg. auto.
  - exfalso. apply Ha. rewrite <- Hg. auto.
  - now apply IH.
Qed.

(** C3, amended: in the merged list a factory that has the identifier of a
    user-supplied factory is itself user-supplied (no default with that
    identifier survives), every user factory and every default identifier
    is present, and, when the user-supplied factories have pairwise
    distinct identifiers, the merged list holds exactly one factory per
    identifier, the user's wherever the user supplied one. *)
Theorem mergedFactories_one_factory_per_id defaults services :
  let user := map normalizeServiceDef services in
  let merged := mergedFactories defaults services in
  (forall f, f ∈ merged -> ref_id (service f) ∈ service_ids user -> f ∈ user) /\
  (forall u, u ∈ user -> u ∈ merged) /\
  (forall d, d ∈ defaults -> ref_id (service d) ∈ service_ids merged) /\
  (NoDup (service_ids user) ->
   NoDup (service_ids merged) /\
   (forall u f, u ∈ user -> f ∈ merged ->
      ref_id (service f) = ref_id (service u) -> f = u)).
Proof.
  intros user merged. subst merged. unfold mergedFactories. fold user.
  destruct (addDefaults_extends defaults user) as (appended & Heq & _ & Happ).
  assert (Huser : forall u, u ∈ user -> u ∈ addDefaults defaults user).
  { intros u Hu. rewrite Heq. apply elem_of_app. now left. }
  split; [| split; [assumption | split]].
  - intros f Hf Hid. rewrite Heq in Hf. apply elem_of_app in Hf as [Hf | Hf];
      [assumption |]. destruct (Happ f Hf) as [_ Hn]. contradiction.
  - intros d Hd. now apply addDefaults_covers.
  - intros Hnd.
    assert (Hmerged : NoDup (service_ids (addDefaults defaults user)))
      by now apply addDefaults_NoDup.
    split; [assumption |].
    intros u f Hu Hf Hid.
    apply (NoDup_map_inj (fun f => ref_id (service f)) (addDefaults defaults user)); auto.
Qed.

Lemma mergedFactories_one_factory_per_id_witness :
  NoDup (service_ids (mergedFactories sim_defaults
    [DefTuple (sim_ref "core.logger" "plugin") (JsString "silent")])).
Proof.
  refine (proj1 (proj2 (proj2 (proj2 (mergedFactories_one_factory_per_id sim_defaults
    [DefTuple (sim_ref "core.logger" "plugin") (JsString "silent")]))) _)).
  refine (bool_decide_unpack _ _). vm_compute. exact I.
Defined.

(** C3 as stated fails: two entries for the same reference both survive. *)
Lemma mergedFactories_keeps_duplicate_user_ids :
  ~ NoDup (service_ids (mergedFactories sim_defaults
      [DefTuple (sim_ref "catalog.client" "plugin") (JsNumber 1);
       DefTuple (sim_ref "catalog.client" "plugin") (JsNumber 2)])).
Proof.
  refine (bool_decide_unpack _ _). vm_compute. exact I.
Qed.

(** ** The closures and the cell of [server] *)

Section Cells.
Variable E : Externals.

Lemma cell_insert_same (l : loc) (v : option ExtendedHttpServer) (e : Ext E) h :
  cell l {| ext := e; heap := <[l := v]> h |} = v.
Proof. unfold cell. cbn. now rewrite lookup_insert_eq. Qed.


(** X13: the body of the [server] accessor (lines 230-235) throws the
    access-before-ready error exactly when the variable [server] of the
    call is still [undefined]; once the variable holds the server handle,
    the body returns that handle and does not throw.  In both cases nothing
    else happens. *)
Theorem get_server_throws_iff_unpopulated (server : loc) (w : Fw (Ext E)) :
  (cell server w = None <->
   get_server E server w = (Throw (NewError "TestBackend server is not available"), w, []))
  /\ (forall srv, cell server w = Some srv <-> get_server E server w = (Ok srv, w, [])).
Proof.
  unfold get_server. run_prog. destruct (cell server w) as [srv |]; cbn.
  - split; [split; intros H; discriminate H |].
    intros srv'. split; intros H; [injection H as -> | injection H as ->]; reflexivity.
  - split; [split; reflexivity |].
    intros srv. split; intros H; discriminate H.
Qed.

(** C5: the discovery factory fails, with the error "Test server not
    started yet", exactly when the variable [server] is [undefined];
    otherwise it asks the server for its port and resolves to a function
    that resolves to a discovery built for the base URL
    [http://localhost:<port>] and the listen port [<port>]. *)
Theorem discoveryFactory_factory_spec (server : loc) (args : Deps) (w : Fw (Ext E)) :
  (cell server w = None <->
   exists e, fst (fst (discoveryFactory_factory E server args w)) = Throw e)
  /\ (cell server w = None ->
      discoveryFactory_factory E server args w
      = (Throw (NewError "Test server not started yet"), w, []))
  /\ (forall srv, cell server w = Some srv ->
      let port := server_port E srv (ext w) in
      let discovery :=
        {| discovery_baseUrl := "http://localhost:" +:+ pretty port;
           discovery_listen_port := port |} in
      exists provider,
        discoveryFactory_factory E server args w
        = (Ok (JsFunction provider), w, [CallServerPort srv]) /\
        forall w', call E provider [] w' = (Ok (JsDiscovery discovery), w', [])).
Proof.
  unfold discoveryFactory_factory. run_prog. destruct (cell server w) as [srv |]; cbn.
  - split; [split; [discriminate | intros [e He]; discriminate He] |].
    split; [discriminate |].
    intros srv' [= <-]. eexists. split; reflexivity.
  - split; [split; [intros _; eexists; reflexivity | reflexivity] |].
    split; [reflexivity | discriminate].
Qed.

(** The function of the shutdown hook stops the server that the variable
    holds when the hook runs. *)
Lemma call_hook_fn_stops (server : loc) (srv : ExtendedHttpServer) (w : Fw (Ext E)) :
  cell server w = Some srv ->
  call_hook_fn E (StopServerFn server) w
  = (fst (server_stop E srv (ext w)), set_ext (snd (server_stop E srv (ext w))) w,
     [CallServerStop srv]).
Proof.
  intros Hcell. unfold call_hook_fn. run_prog. rewrite Hcell. cbn.
  destruct (server_stop E srv (ext w)); reflexivity.
Qed.

(** C6, amended: when the server can be created and started, the factory
    creates the router, puts the handler of the router first in the
    pipeline, before the not-found and error middleware, creates a server
    for host [''] and port [0], stores the handle in the variable [server]
    (its only write), registers a shutdown hook that stops that server,
    and only then starts the server; it returns the router. *)
Theorem rootHttpRouterFactory_factory_steps
    (server : loc) (args : Deps) (w : Fw (Ext E))
    (router : RootHttpRouter) (srv : ExtendedHttpServer) (e1 e2 e3 : Ext E) :
  let logger := LoggerChild (deps_get "rootLogger" args) [("service", "rootHttpRouter")] in
  let middleware :=
    {| middleware_config := deps_get "config" args; middleware_logger := logger |} in
  let app := [RouterHandler router; NotFoundHandler middleware; ErrorHandler middleware] in
  let options := {| listen_host := ""; listen_port := 0 |} in
  let hook := {| hook_fn := StopServerFn server; hook_logger := logger |} in
  let lifecycle := deps_get "lifecycle" args in
  DefaultRootHttpRouter_create E (ext w) = (router, e1) ->
  createHttpServer E app options logger e1 = (Ok srv, e2) ->
  server_start E srv (lifecycle_addShutdownHook E lifecycle hook e2) = (Ok tt, e3) ->
  rootHttpRouterFactory_factory E server args w
  = (Ok (JsRouter router),
     {| ext := e3; heap := <[server := Some srv]> (heap w) |},
     [CallRouterCreate;
      CallCreateHttpServer app options logger;
      CallAddShutdownHook lifecycle hook;
      CallServerStart srv])
  /\ (forall w', cell server w' = Some srv ->
      snd (call_hook_fn E (hook_fn hook) w') = [CallServerStop srv]).
Proof.
  intros logger middleware app options hook lifecycle Hrouter Hcreate Hstart.
  subst logger middleware app options hook lifecycle.
  split.
  - unfold rootHttpRouterFactory_factory. run_prog. cbn.
    rewrite Hrouter. cbn. rewrite Hcreate. cbn.
    rewrite cell_insert_same. cbn. rewrite Hstart. reflexivity.
  - intros w' Hcell. cbn [hook_fn]. now rewrite (call_hook_fn_stops _ srv).
Qed.

(** The run of the factory, by the answers of the collaborators. *)
Lemma rootHttpRouterFactory_factory_run (server : loc) (args : Deps) (w : Fw (Ext E)) :
  let logger := LoggerChild (deps_get "rootLogger" args) [("service", "rootHttpRouter")] in
  let middleware :=
    {| middleware_config := deps_get "config" args; middleware_logger := logger |} in
  let options := {| listen_host := ""; listen_port := 0 |} in
  let hook := {| hook_fn := StopServerFn server; hook_logger := logger |} in
  let lifecycle := deps_get "lifecycle" args in
  let router := fst (DefaultRootHttpRouter_create E (ext w)) in
  let e1 := snd (DefaultRootHttpRouter_create E (ext w)) in
  let app := [RouterHandler router; NotFoundHandler middleware; ErrorHandler middleware] in
  rootHttpRouterFactory_factory E server args w =
  match createHttpServer E app options logger e1 with
  | (Throw err, e2) =>
      (Throw err, {| ext := e2; heap := heap w |},
       [CallRouterCreate; CallCreateHttpServer app options logger])
  | (Ok srv, e2) =>
      let '(started, e3) :=
        server_start E srv (lifecycle_addShutdownHook E lifecycle hook e2) in
      (match started with Ok _ => Ok (JsRouter router) | Throw err => Throw err end,
       {| ext := e3; heap := <[server := Some srv]> (heap w) |},
       [CallRouterCreate; CallCreateHttpServer app options logger;
        CallAddShutdownHook lifecycle hook; CallServerStart srv])
  end.
Proof.
  intros logger middleware options hook lifecycle router e1 app.
  subst logger middleware options hook lifecycle router e1 app.
  unfold rootHttpRouterFactory_factory. run_prog.
  destruct (DefaultRootHttpRouter_create E (ext w)) as [router e1]. cbn.
  match goal with |- context [createHttpServer E ?a ?o ?l e1] =>
    destruct (createHttpServer E a o l e1) as [[srv | err] e2] end; cbn; [| reflexivity].
  rewrite cell_insert_same. cbn.
  match goal with |- context [server_start E srv ?e] =>
    destruct (server_start E srv e) as [[[] | err] e3] end; reflexivity.
Qed.







End Cells.

(** ** Running programs step by step *)

Lemma bind_ok {S A B} (m : Prog S A) (k : A -> Prog S B) s a s1 log1 :
  m s = (Ok a, s1, log1) ->
  bind m k s = (result_of (k a s1), state_of (k a s1), log1 ++ log_of (k a s1)).
Proof.
  intros Hm. unfold bind, result_of, state_of, log_of. rewrite Hm.
  destruct (k a s1) as [[r s2] log2]. reflexivity.
Qed.

Lemma bind_throw {S A B} (m : Prog S A) (k : A -> Prog S B) s e s1 log1 :
  m s = (Throw e, s1, log1) -> bind m k s = (Throw e, s1, log1).
Proof. intros Hm. unfold bind. now rewrite Hm. Qed.

Lemma bind_assoc {S A B C} (m : Prog S A) (f : A -> Prog S B) (g : B -> Prog S C) s :
  bind (bind m f) g s = bind m (fun a => bind (f a) g) s.
Proof.
  unfold bind. destruct (m s) as [[[a | e] s1] log1]; [| reflexivity].
  destruct (f a s1) as [[[b | e] s2] log2]; [| reflexivity].
  destruct (g b s2) as [[r s3] log3]. now rewrite app_assoc.
Qed.

Lemma bind_ext {S A B} (m : Prog S A) (f g : A -> Prog S B) :
  (forall a s, f a s = g a s) -> forall s, bind m f s = bind m g s.
Proof.
  intros Hfg s. unfold bind. destruct (m s) as [[[a | e] s1] log1]; [| reflexivity].
  now rewrite Hfg.
Qed.

Lemma bind_ret_l {S A B} (a : A) (f : A -> Prog S B) s : bind (ret a) f s = f a s.
Proof. unfold bind, ret. now destruct (f a s) as [[r s1] log1]. Qed.

Lemma run_eta {S A} (m : Prog S A) s a :
  result_of (m s) = Ok a -> m s = (Ok a, state_of (m s), log_of (m s)).
Proof. destruct (m s) as [[r s1] l]. cbn. now intros ->. Qed.

Lemma out_eta {S A} (out : Result A * S * list Call) :
  out = (result_of out, state_of out, log_of out).
Proof. now destruct out as [[r s] l]. Qed.

Lemma stop_calls_app l k : stop_calls (l ++ k) = stop_calls l ++ stop_calls k.
Proof. apply omap_app. Qed.

Lemma bind_result_ok {S A B} (m : Prog S A) (k : A -> Prog S B) s b :
  result_of (bind m k s) = Ok b ->
  exists a, result_of (m s) = Ok a /\
            result_of (k a (state_of (m s))) = Ok b /\
            state_of (bind m k s) = state_of (k a (state_of (m s))).
Proof.
  destruct (m s) as [[[a | e] s1] log1] eqn:Hrun.
  - rewrite (bind_ok _ _ _ _ _ _ Hrun). unfold result_of at 1, state_of at 3.
    cbn [fst snd]. intros H. exists a. auto.
  - rewrite (bind_throw _ _ _ _ _ _ Hrun). intros H. discriminate H.
Qed.

Lemma keeps_ret {Ext A} (a : A) : keeps_module_vars (Ext := Ext) (ret a).
Proof. intros w. reflexivity. Qed.

Lemma keeps_bind {Ext A B} (m : Prog (World Ext) A) (k : A -> Prog (World Ext) B) :
  keeps_module_vars m -> (forall a, keeps_module_vars (k a)) -> keeps_module_vars (bind m k).
Proof.
  intros Hm Hk w. specialize (Hm w).
  destruct (m w) as [[[a | e] w1] log1] eqn:Hrun.
  - rewrite (bind_ok _ _ _ _ _ _ Hrun). unfold state_of at 1. cbn.
    rewrite Hk. exact Hm.
  - rewrite (bind_throw _ _ _ _ _ _ Hrun). exact Hm.
Qed.

Lemma keeps_for_each {Ext A} (l : list A) (body : A -> Prog (World Ext) unit) :
  (forall x, keeps_module_vars (body x)) -> keeps_module_vars (for_each l body).
Proof.
  intros Hbody. induction l as [| x l IH]; cbn [for_each].
  - apply keeps_ret.
  - apply keeps_bind; [apply Hbody | intros _; exact IH].
Qed.

Section ModuleState.
Variable E : Externals.
Variable F : Framework (Ext E).

(** Code that runs on the state reachable from outside the module cannot
    change the module-level variables. *)
Lemma keeps_in_fw {A} (m : Prog (Fw (Ext E)) A) : keeps_module_vars (in_fw E m).
Proof.
  intros w. unfold in_fw, zoom, state_of.
  destruct (m (fw w)) as [[r f1] log]. reflexivity.
Qed.

Lemma in_fw_run {A} (m : Prog (Fw (Ext E)) A) (w : World (Ext E)) :
  in_fw E m w = (result_of (m (fw w)), set_fw (state_of (m (fw w))) w, log_of (m (fw w))).
Proof.
  unfold in_fw, zoom, result_of, state_of, log_of.
  destruct (m (fw w)) as [[r f1] log]. reflexivity.
Qed.

Lemma in_fw_result {A} (m : Prog (Fw (Ext E)) A) (w : World (Ext E)) :
  result_of (in_fw E m w) = result_of (m (fw w)).
Proof. now rewrite in_fw_run. Qed.

Lemma in_fw_state {A} (m : Prog (Fw (Ext E)) A) (w : World (Ext E)) :
  state_of (in_fw E m w) = set_fw (state_of (m (fw w))) w.
Proof. now rewrite in_fw_run. Qed.

(** *** Teardown *)

Lemma map_each_stopBackend_call (backends : list Backend) :
  forall w : World (Ext E),
    let out := map_each backends (stopBackend_call E F) w in
    result_of out = Ok (stop_outcomes E F backends (fw w)) /\
    module_vars (state_of out) = module_vars w /\
    log_of out = map CallBackendStop backends.
Proof.
  induction backends as [| backend rest IH]; intros w out; subst out.
  - cbn. auto.
  - cbn [map_each stop_outcomes map].
    assert (Hcall : stopBackend_call E F backend w
                    = (Ok (fst (backend_stop F backend (fw w))),
                       set_fw (snd (backend_stop F backend (fw w))) w,
                       [CallBackendStop backend])).
    { unfold stopBackend_call. run_prog.
      now destruct (backend_stop F backend (fw w)). }
    rewrite (bind_ok _ _ _ _ _ _ Hcall). cbv beta.
    destruct (backend_stop F backend (fw w)) as [r w1]. cbn [fst snd].
    destruct (IH (set_fw w1 w)) as (Hr & Hv & Hl).
    rewrite (bind_ok _ _ _ _ _ _ (run_eta _ _ _ Hr)).
    unfold ret, result_of, state_of, log_of in *. cbn [fst snd app] in *.
    rewrite Hl, app_nil_r. repeat split. exact Hv.
Qed.

Lemma stopBackend_resume_run (stopped : Result unit) (w : World (Ext E)) :
  result_of (stopBackend_resume E stopped w) = Ok tt /\
  module_vars (state_of (stopBackend_resume E stopped w)) = module_vars w /\
  log_of (stopBackend_resume E stopped w)
  = map (fun e => CallConsoleError (stop_failure_message e)) (rejections [stopped]).
Proof.
  unfold stopBackend_resume. destruct stopped as [[] | e]; run_prog; repeat split.
Qed.

Lemma rejections_cons {A} (r : Result A) (outcomes : list (Result A)) :
  rejections (r :: outcomes) = rejections [r] ++ rejections outcomes.
Proof. now destruct r. Qed.

Lemma for_each_stopBackend_resume (pending : list (Result unit)) :
  forall w : World (Ext E),
    let out := for_each pending (stopBackend_resume E) w in
    result_of out = Ok tt /\
    module_vars (state_of out) = module_vars w /\
    log_of out = map (fun e => CallConsoleError (stop_failure_message e)) (rejections pending).
Proof.
  induction pending as [| stopped rest IH]; intros w out; subst out.
  - cbn. auto.
  - cbn [for_each].
    destruct (stopBackend_resume_run stopped w) as (Hr & Hv & Hl).
    rewrite (bind_ok _ _ _ _ _ _ (run_eta _ _ _ Hr)).
    destruct (IH (state_of (stopBackend_resume E stopped w))) as (Hr' & Hv' & Hl').
    rewrite (rejections_cons stopped rest), map_app, <- Hl, <- Hl', <- Hv, <- Hv'.
    unfold result_of, state_of, log_of in *. cbn [fst snd] in *. auto.
Qed.

Lemma settling_order_perm {A} (picks : list nat) :
  forall pending : list A, settling_order picks pending ≡ₚ pending.
Proof.
  induction picks as [| i rest IH]; intros pending; cbn [settling_order]; [reflexivity |].
  destruct (pending !! i) as [p |] eqn:Hp; [| apply IH].
  rewrite IH. symmetry. now apply delete_Permutation.
Qed.

Lemma settling_order_nil {A} (picks : list nat) : settling_order picks (@nil A) = [].
Proof. induction picks as [| i rest IH]; [reflexivity | exact IH]. Qed.

(** With an empty registry the hook has nothing to do. *)
Lemma call_test_hook_nothing (w : World (Ext E)) :
  backendInstancesToCleanUp w = [] ->
  call_test_hook E F StopBackendsHook w = (Ok tt, w, []).
Proof.
  destruct w as [f n backends r]. cbn [backendInstancesToCleanUp]. intros ->.
  unfold call_test_hook. run_prog. rewrite settling_order_nil. reflexivity.
Qed.

Lemma rejections_perm {A} (l k : list (Result A)) :
  l ≡ₚ k -> rejections l ≡ₚ rejections k.
Proof. intros H. unfold rejections. now rewrite H. Qed.

(** The outcome of the teardown hook, in full. *)
Lemma call_test_hook_run (w : World (Ext E)) :
  exists w1 printed,
    call_test_hook E F StopBackendsHook w
    = (Ok tt, set_backendInstancesToCleanUp [] w1,
       map CallBackendStop (backendInstancesToCleanUp w)
       ++ map (fun e => CallConsoleError (stop_failure_message e)) printed)
    /\ printed ≡ₚ rejections (stop_outcomes E F (backendInstancesToCleanUp w) (fw w))
    /\ module_vars w1 = module_vars w.
Proof.
  unfold call_test_hook.
  destruct (map_each_stopBackend_call (backendInstancesToCleanUp w) w) as (Hr & Hv & Hl).
  set (w0 := state_of (map_each (backendInstancesToCleanUp w) (stopBackend_call E F) w)) in *.
  set (outcomes := stop_outcomes E F (backendInstancesToCleanUp w) (fw w)) in *.
  set (picks := stop_settling F (backendInstancesToCleanUp w) (fw w0)).
  destruct (for_each_stopBackend_resume (settling_order picks outcomes) w0)
    as (Hr' & Hv' & Hl').
  exists (state_of (for_each (settling_order picks outcomes) (stopBackend_resume E) w0)),
         (rejections (settling_order picks outcomes)).
  split; [| split].
  - rewrite (bind_ok _ _ w (backendInstancesToCleanUp w) w []) by reflexivity.
    rewrite (bind_ok _ _ _ _ _ _ (run_eta _ _ _ Hr)). fold w0.
    rewrite (bind_ok _ _ w0 picks w0 []) by reflexivity.
    rewrite (bind_ok _ _ _ _ _ _ (run_eta _ _ _ Hr')).
    unfold result_of, state_of, log_of, modify in *. cbn [fst snd app] in *.
    rewrite Hl, Hl', app_nil_r. reflexivity.
  - apply rejections_perm, settling_order_perm.
  - now rewrite Hv', Hv.
Qed.

Lemma stop_calls_teardown_log (backends : list Backend) (errors : list Error) :
  stop_calls (map CallBackendStop backends
              ++ map (fun e => CallConsoleError (stop_failure_message e)) errors)
  = backends.
Proof.
  rewrite stop_calls_app.
  assert (H1 : stop_calls (map CallBackendStop backends) = backends).
  { induction backends as [| b l IH]; [reflexivity | cbn; now f_equal]. }
  assert (H2 : stop_calls (map (fun e => CallConsoleError (stop_failure_message e)) errors)
               = []).
  { induction errors as [| e l IH]; [reflexivity | exact IH]. }
  now rewrite H1, H2, app_nil_r.
Qed.

(** C7: whatever the [stop()] calls do and in whatever order their promises
    settle, the teardown hook resolves; it calls [stop()] on every backend
    of the registry, in the order of the registry; every rejection is
    caught and printed with [console.error], once, in the order of
    settling, and keeps no other backend from being stopped; these are all
    its calls; the registry is empty afterwards. *)
Theorem teardown_stops_every_backend (w : World (Ext E)) :
  let out := call_test_hook E F StopBackendsHook w in
  result_of out = Ok tt /\
  (exists printed,
     printed ≡ₚ rejections (stop_outcomes E F (backendInstancesToCleanUp w) (fw w)) /\
     log_of out =
       map CallBackendStop (backendInstancesToCleanUp w)
       ++ map (fun e => CallConsoleError (stop_failure_message e)) printed) /\
  stop_calls (log_of out) = backendInstancesToCleanUp w /\
  backendInstancesToCleanUp (state_of out) = [].
Proof.
  intros out. subst out.
  destruct (call_test_hook_run w) as (w1 & printed & Hrun & Hperm & _).
  rewrite Hrun. unfold result_of, state_of, log_of. cbn [fst snd].
  split; [reflexivity | split; [| split; [| reflexivity]]].
  - exists printed. split; [exact Hperm | reflexivity].
  - apply stop_calls_teardown_log.
Qed.

(** *** Starting a backend *)

Lemma declare_server_run (w : World (Ext E)) :
  declare_server E w =
  (Ok (next_cell w),
   set_next_cell (S (next_cell w))
     (set_fw (set_heap (<[next_cell w := None]> (heap (fw w))) (fw w)) w),
   []).
Proof. reflexivity. Qed.

(** What [startTestBackend] does once the backend exists and is recorded
    (lines 212-236) leaves the module-level variables alone. *)
Lemma startTestBackend_tail_keeps
    (backend : Backend) (server : loc)
    (extensionPoints : list (ExtensionPoint * JsValue)) (features : list BackendFeature) :
  keeps_module_vars
    ((let registrar := TestExtensionPointRegistrar extensionPoints in
      in_fw E (call_out (CallBackendAdd backend registrar)
                 (on_ext (backend_add F backend registrar)))) ;;
     for_each features (fun feature =>
       in_fw E (call_out (CallBackendAdd backend feature)
                  (on_ext (backend_add F backend feature)))) ;;
     in_fw E (call_out (CallBackendStart backend) (backend_start F backend)) ;;
     srv <- in_fw E (get_server E server) ;;
     ret {| tb_backend := backend; tb_server := srv |})%prog.
Proof.
  apply keeps_bind; [apply keeps_in_fw | intros _].
  apply keeps_bind; [apply keeps_for_each; intros x; apply keeps_in_fw | intros _].
  apply keeps_bind; [apply keeps_in_fw | intros _].
  apply keeps_bind; [apply keeps_in_fw | intros srv; apply keeps_ret].
Qed.

(** The run of [startTestBackend] up to the call of
    [createSpecializedBackend]. *)
Lemma startTestBackend_create (options : TestBackendOptions) (w : World (Ext E)) :
  let server := next_cell w in
  let services := composedServices E server (default [] (opt_services options)) in
  let out := startTestBackend E F options w in
  next_cell (state_of out) = S server /\
  registered (state_of out) = registered w /\
  (exists rest, log_of out = CallCreateSpecializedBackend services :: rest) /\
  match createSpecializedBackend F services (ext (fw w)) with
  | (Ok backend, _) =>
      backendInstancesToCleanUp (state_of out) = backendInstancesToCleanUp w ++ [backend]
  | (Throw e, _) =>
      backendInstancesToCleanUp (state_of out) = backendInstancesToCleanUp w /\
      result_of out = Throw e
  end.
Proof.
  intros server services out. subst out. unfold startTestBackend.
  rewrite (bind_ok _ _ _ _ _ _ (declare_server_run w)). fold server. fold services.
  set (w0 := set_next_cell (S server) _).
  assert (Hcreate :
    in_fw E (call_out (CallCreateSpecializedBackend services)
               (on_ext (createSpecializedBackend F services))) w0
    = (fst (createSpecializedBackend F services (ext (fw w))),
       set_fw (set_ext (snd (createSpecializedBackend F services (ext (fw w)))) (fw w0)) w0,
       [CallCreateSpecializedBackend services])).
  { unfold in_fw, zoom, call_out, on_ext. subst w0. cbn.
    destruct (createSpecializedBackend F services (ext (fw w))); reflexivity. }
  destruct (createSpecializedBackend F services (ext (fw w))) as [[backend | e] e1];
    cbn [fst snd] in Hcreate.
  - rewrite (bind_ok _ _ _ _ _ _ Hcreate).
    erewrite (bind_ok (modify _)) by reflexivity.
    match goal with |- context [state_of (?tail ?w1)] =>
      pose proof (startTestBackend_tail_keeps backend server _ _ w1
                  : module_vars (state_of (tail w1)) = module_vars w1) as Hkeep;
      destruct (tail w1) as [[r w2] log2]
    end.
    subst w0. unfold module_vars, state_of, log_of in *. cbn in *.
    injection Hkeep as Hn Hb Hr.
    repeat split; [assumption | assumption | eexists; reflexivity | assumption].
  - rewrite (bind_throw _ _ _ _ _ _ Hcreate).
    unfold state_of, log_of, result_of. cbn [fst snd app].
    repeat split. eexists. reflexivity.
Qed.

(** C8, amended: the backend is added to the registry as soon as
    [createSpecializedBackend] has returned it, before anything is added to
    it and before it is started: a call that gets a backend leaves the
    registry extended by that backend whatever [backend.add] and
    [backend.start] do afterwards, and a call in which
    [createSpecializedBackend] throws leaves the registry as it was. *)
Theorem startTestBackend_records_before_start
    (options : TestBackendOptions) (w : World (Ext E)) :
  let services := composedServices E (next_cell w) (default [] (opt_services options)) in
  let out := startTestBackend E F options w in
  (forall backend e1,
     createSpecializedBackend F services (ext (fw w)) = (Ok backend, e1) ->
     backendInstancesToCleanUp (state_of out) = backendInstancesToCleanUp w ++ [backend])
  /\ (forall e e1,
     createSpecializedBackend F services (ext (fw w)) = (Throw e, e1) ->
     backendInstancesToCleanUp (state_of out) = backendInstancesToCleanUp w /\
     result_of out = Throw e).
Proof.
  intros services out.
  destruct (startTestBackend_create options w) as (_ & _ & _ & H).
  fold services in H. fold out in H.
  split.
  - intros backend e1 Hcreate. now rewrite Hcreate in H.
  - intros e e1 Hcreate. now rewrite Hcreate in H.
Qed.

(** *** One cell per call *)


Lemma get_server_state (server : loc) (w : Fw (Ext E)) :
  state_of (get_server E server w) = w.
Proof. unfold get_server. run_prog. now destruct (cell server w). Qed.


Lemma get_server_ok_cell (server : loc) (w : Fw (Ext E)) (srv : ExtendedHttpServer) :
  result_of (get_server E server w) = Ok srv -> cell server w = Some srv.
Proof.
  unfold get_server. run_prog. destruct (cell server w); cbn; congruence.
Qed.


(** [Object.assign] reads the accessor when [startTestBackend] returns: a
    call that resolves carries the handle its variable holds at that
    time. *)
Lemma startTestBackend_server_is_cell
    (options : TestBackendOptions) (w : World (Ext E)) (tb : TestBackend) :
  result_of (startTestBackend E F options w) = Ok tb ->
  cell (next_cell w) (fw (state_of (startTestBackend E F options w))) = Some (tb_server tb).
Proof.
  unfold startTestBackend.
  rewrite (bind_ok _ _ _ _ _ _ (declare_server_run w)).
  set (server := next_cell w). set (w0 := set_next_cell _ _).
  unfold result_of at 1, state_of at 1. cbn [fst snd].
  intros H.
  apply bind_result_ok in H as (backend & _ & H & ->).
  apply bind_result_ok in H as ([] & _ & H & ->).
  apply bind_result_ok in H as ([] & _ & H & ->).
  apply bind_result_ok in H as ([] & _ & H & ->).
  apply bind_result_ok in H as ([] & _ & H & ->).
  apply bind_result_ok in H as (srv & Hget & H & ->).
  injection H as <-. cbn [tb_server].
  rewrite in_fw_result in Hget. unfold state_of at 1. cbn [fst snd].
  rewrite in_fw_state, get_server_state. cbn [fw set_fw].
  now apply get_server_ok_cell.
Qed.

(** *** Installing the teardown hook *)

Lemma registerTestHooks_absent (w : World (Ext E)) :
  afterAll_is_function E (ext (fw w)) = false ->
  registerTestHooks E w = (Ok tt, w, []).
Proof. intros Habsent. unfold registerTestHooks. run_prog. now rewrite Habsent. Qed.

Lemma registerTestHooks_registered (w : World (Ext E)) :
  registered w = true -> registerTestHooks E w = (Ok tt, w, []).
Proof.
  intros Hreg. unfold registerTestHooks. run_prog.
  destruct (afterAll_is_function E (ext (fw w))); cbn; [| reflexivity].
  now rewrite Hreg.
Qed.

Lemma registerTestHooks_first (w : World (Ext E)) :
  afterAll_is_function E (ext (fw w)) = true ->
  registered w = false ->
  registerTestHooks E w =
  (Ok tt,
   set_fw (set_ext (afterAll E StopBackendsHook (ext (fw w))) (fw w)) (set_registered true w),
   [CallAfterAll StopBackendsHook]).
Proof.
  intros Hpresent Hreg. unfold registerTestHooks. run_prog.
  rewrite Hpresent. cbn. rewrite Hreg. reflexivity.
Qed.

Lemma repeat_registerTestHooks_registered (n : nat) (w : World (Ext E)) :
  registered w = true -> repeat_registerTestHooks E n w = (Ok tt, w, []).
Proof.
  intros Hreg. induction n as [| n IH]; [reflexivity |].
  cbn [repeat_registerTestHooks].
  rewrite (bind_ok _ _ _ _ _ _ (registerTestHooks_registered w Hreg)), IH.
  reflexivity.
Qed.

(** C10: without the global [afterAll], [registerTestHooks] does nothing;
    with it, starting from a module whose hook is not yet registered, any
    number of calls (at least one) gives the hook to [afterAll] exactly
    once; and a call that follows another call never does anything. *)
Theorem registerTestHooks_registers_once (w : World (Ext E)) :
  (afterAll_is_function E (ext (fw w)) = false ->
   registerTestHooks E w = (Ok tt, w, []))
  /\ (afterAll_is_function E (ext (fw w)) = true -> registered w = false ->
      forall n,
        let out := repeat_registerTestHooks E (S n) w in
        result_of out = Ok tt /\
        log_of out = [CallAfterAll StopBackendsHook] /\
        registered (state_of out) = true)
  /\ (let w1 := state_of (registerTestHooks E w) in
      registerTestHooks E w1 = (Ok tt, w1, [])).
Proof.
  split; [apply registerTestHooks_absent | split].
  - intros Hpresent Hreg n out. subst out. cbn [repeat_registerTestHooks].
    rewrite (bind_ok _ _ _ _ _ _ (registerTestHooks_first w Hpresent Hreg)).
    rewrite repeat_registerTestHooks_registered by reflexivity.
    repeat split.
  - intros w1. subst w1.
    destruct (afterAll_is_function E (ext (fw w))) eqn:Hpresent.
    + destruct (registered w) eqn:Hreg.
      * rewrite (registerTestHooks_registered w Hreg). unfold state_of. cbn.
        now apply registerTestHooks_registered.
      * rewrite (registerTestHooks_first w Hpresent Hreg). unfold state_of. cbn [fst snd].
        now apply registerTestHooks_registered.
    + rewrite (registerTestHooks_absent w Hpresent). unfold state_of. cbn.
      now apply registerTestHooks_absent.
Qed.

End ModuleState.

(** ** The program at work in the simulated environment *)

(** The accessor before and after the variable is populated. *)
Example get_server_in_sim :
  let w0 := sim_world true false [] in
  let w1 := state_of (startTestBackend simE simF no_options w0) in
  result_of (get_server simE 0 (fw (state_of (declare_server simE w0))))
    = Throw (NewError "TestBackend server is not available") /\
  result_of (get_server simE 0 (fw w1)) = Ok (HttpServer 2).
Proof. vm_compute. split; reflexivity. Qed.


Lemma discoveryFactory_factory_spec_witness :
  exists provider,
    discoveryFactory_factory simE 0 sim_deps
      (fw (state_of (startTestBackend simE simF no_options (sim_world true false []))))
    = (Ok (JsFunction provider),
       fw (state_of (startTestBackend simE simF no_options (sim_world true false []))),
       [CallServerPort (HttpServer 2)]) /\
    forall w', call simE provider [] w'
      = (Ok (JsDiscovery {| discovery_baseUrl := "http://localhost:40002";
                            discovery_listen_port := 40002 |}), w', []).
Proof.
  exact (proj2 (proj2 (discoveryFactory_factory_spec simE 0 sim_deps
           (fw (state_of (startTestBackend simE simF no_options (sim_world true false []))))))
         (HttpServer 2) eq_refl).
Defined.

Lemma rootHttpRouterFactory_factory_steps_witness :
  result_of (rootHttpRouterFactory_factory simE 0 sim_deps (fw (sim_world true false [])))
    = Ok (JsRouter (Router 0)) /\
  cell 0 (state_of (rootHttpRouterFactory_factory simE 0 sim_deps (fw (sim_world true false []))))
    = Some (HttpServer 1).
Proof.
  pose proof (proj1 (rootHttpRouterFactory_factory_steps simE 0 sim_deps
    (fw (sim_world true false [])) (Router 0) (HttpServer 1)
    (sim_tick (ext (fw (sim_world true false []))))
    (sim_tick (sim_tick (ext (fw (sim_world true false [])))))
    (sim_tick (sim_tick (ext (fw (sim_world true false [])))))
    eq_refl eq_refl eq_refl)) as H.
  rewrite H. split; [reflexivity |]. unfold state_of. cbn [fst snd].
  apply cell_insert_same.
Defined.

(** C6 as stated fails: the shutdown hook is registered (third call) before
    the server is started (fourth call). *)
Lemma rootHttpRouterFactory_factory_hook_before_start :
  let out := rootHttpRouterFactory_factory simE 0 sim_deps (fw (sim_world true false [])) in
  result_of out = Ok (JsRouter (Router 0)) /\
  position is_addShutdownHook (log_of out) = Some 2 /\
  position is_server_start (log_of out) = Some 3.
Proof. vm_compute. repeat split. Qed.

(** The scenario of the spec: two backends, the first [stop()] rejects. *)
Example teardown_in_sim :
  let w0 := sim_world true false [0] in
  let w1 := state_of (startTestBackend simE simF no_options w0) in
  let w2 := state_of (startTestBackend simE simF no_options w1) in
  let out := call_test_hook simE simF StopBackendsHook w2 in
  backendInstancesToCleanUp w2 = [BackendRef 0; BackendRef 3] /\
  result_of out = Ok tt /\
  log_of out =
    [CallBackendStop (BackendRef 0);
     CallBackendStop (BackendRef 3);
     CallConsoleError "Failed to stop backend after tests, Error: stop rejected"] /\
  backendInstancesToCleanUp (state_of out) = [].
Proof. vm_compute. repeat split. Qed.

(** The errors are printed in the order in which the promises of
    [stop()] settle, which need not be the order of the registry: here the
    second of three backends settles first. *)
Example teardown_settling_in_sim :
  let w := set_backendInstancesToCleanUp [BackendRef 0; BackendRef 1; BackendRef 2]
             (sim_world true false []) in
  let out := call_test_hook simE (simF_settling [1]) StopBackendsHook w in
  result_of out = Ok tt /\
  log_of out =
    [CallBackendStop (BackendRef 0);
     CallBackendStop (BackendRef 1);
     CallBackendStop (BackendRef 2);
     CallConsoleError "Failed to stop backend after tests, Error: backend 1";
     CallConsoleError "Failed to stop backend after tests, Error: backend 0";
     CallConsoleError "Failed to stop backend after tests, Error: backend 2"] /\
  backendInstancesToCleanUp (state_of out) = [].
Proof. vm_compute. repeat split. Qed.

(** [String(error)]: an error without a message prints as its name. *)
Example error_to_string_in_sim :
  error_to_string (NewError "") = "Error" /\
  error_to_string (NewError "stop rejected") = "Error: stop rejected" /\
  error_to_string {| error_name := ""; error_message := "stop rejected" |} = "stop rejected".
Proof. repeat split. Qed.

Lemma startTestBackend_records_before_start_witness :
  backendInstancesToCleanUp
    (state_of (startTestBackend simE simF no_options (sim_world true true [])))
  = [] ++ [BackendRef 0].
Proof.
  exact (proj1 (startTestBackend_records_before_start simE simF no_options
                  (sim_world true true []))
           (BackendRef 0) _ eq_refl).
Defined.

(** C8 as stated fails: [backend.start()] rejects, and the backend is in the
    registry all the same. *)
Lemma startTestBackend_failed_start_is_recorded :
  let w := sim_world true true [] in
  let out := startTestBackend simE simF no_options w in
  result_of out = Throw (NewError "start rejected") /\
  backendInstancesToCleanUp w = [] /\
  backendInstancesToCleanUp (state_of out) = [BackendRef 0].
Proof. vm_compute. repeat split. Qed.



Lemma registerTestHooks_registers_once_witness :
  log_of (repeat_registerTestHooks simE 3 (sim_world true false []))
    = [CallAfterAll StopBackendsHook] /\
  registerTestHooks simE (sim_world false false []) = (Ok tt, sim_world false false [], []).
Proof.
  destruct (registerTestHooks_registers_once simE (sim_world true false []))
    as (_ & Honce & _).
  destruct (registerTestHooks_registers_once simE (sim_world false false []))
    as (Habsent & _ & _).
  split.
  - exact (proj1 (proj2 (Honce eq_refl eq_refl 2))).
  - exact (Habsent eq_refl).
Defined.

(** * Further properties of the code *)

(** ** The default merger, again *)

(** A list that already serves every default identifier is left as it is. *)
Lemma addDefaults_nothing_missing defaults :
  forall factories,
    (forall d, d ∈ defaults -> ref_id (service d) ∈ service_ids factories) ->
    addDefaults defaults factories = factories.
Proof.
  induction defaults as [| d defaults IH]; intros factories Hall; [reflexivity |].
  rewrite addDefaults_cons.
  assert (Hd : some_same_id factories d = true).
  { apply some_same_id_true, Hall, elem_of_cons. now left. }
  rewrite Hd. cbn [negb]. apply IH. intros x Hx. apply Hall, elem_of_cons. now right.
Qed.

(** X1: merging the defaults a second time changes nothing: after one pass
    of the loop every default identifier is served, so another pass appends
    no factory. *)
Theorem addDefaults_idempotent defaults user :
  addDefaults defaults (addDefaults defaults user) = addDefaults defaults user.
Proof.
  apply addDefaults_nothing_missing. intros d Hd. now apply addDefaults_covers.
Qed.

(** X2: with no user-supplied service (the option left out or empty), and a
    default set with one factory per identifier, the merged list is the
    default set itself, in its order. *)
Theorem mergedFactories_no_services defaults :
  NoDup (service_ids defaults) -> mergedFactories defaults [] = defaults.
Proof.
  intros Hnd. unfold mergedFactories. cbn [map].
  rewrite (addDefaults_filter defaults Hnd []). cbn [app].
  induction defaults as [| d defaults IH]; [reflexivity |].
  rewrite filter_cons_True by (cbn; apply not_elem_of_nil).
  f_equal. apply IH.
  cbn [service_ids map] in Hnd. now apply NoDup_cons in Hnd as [_ Hnd].
Qed.

Lemma mergedFactories_no_services_witness :
  mergedFactories sim_defaults [] = sim_defaults.
Proof.
  apply mergedFactories_no_services.
  refine (bool_decide_unpack _ _). vm_compute. exact I.
Defined.

(** ** The root http router factory when a step fails *)

Section RouterFactory.
Variable E : Externals.

(** X3: when [createHttpServer] rejects, the factory rejects with the same
    error; the variable [server] and every other cell are as before, no
    shutdown hook is registered and nothing is started. *)
Theorem rootHttpRouterFactory_factory_create_rejects
    (server : loc) (args : Deps) (w : Fw (Ext E))
    (router : RootHttpRouter) (err : Error) (e1 e2 : Ext E) :
  let logger := LoggerChild (deps_get "rootLogger" args) [("service", "rootHttpRouter")] in
  let middleware :=
    {| middleware_config := deps_get "config" args; middleware_logger := logger |} in
  let app := [RouterHandler router; NotFoundHandler middleware; ErrorHandler middleware] in
  let options := {| listen_host := ""; listen_port := 0 |} in
  DefaultRootHttpRouter_create E (ext w) = (router, e1) ->
  createHttpServer E app options logger e1 = (Throw err, e2) ->
  rootHttpRouterFactory_factory E server args w
  = (Throw err, {| ext := e2; heap := heap w |},
     [CallRouterCreate; CallCreateHttpServer app options logger]).
Proof.
  intros logger middleware app options Hrouter Hcreate.
  subst logger middleware app options.
  rewrite rootHttpRouterFactory_factory_run. cbv zeta.
  rewrite Hrouter. cbn [fst snd]. now rewrite Hcreate.
Qed.

(** X4: when [server.start()] rejects, the factory rejects with the same
    error, but by then the variable [server] holds the created server and
    the shutdown hook is registered: run in the state the factory leaves,
    the function of the hook calls [stop()] on that server and settles as
    that call does. *)
Theorem rootHttpRouterFactory_factory_start_rejects
    (server : loc) (args : Deps) (w : Fw (Ext E))
    (router : RootHttpRouter) (srv : ExtendedHttpServer) (err : Error) (e1 e2 e3 : Ext E) :
  let logger := LoggerChild (deps_get "rootLogger" args) [("service", "rootHttpRouter")] in
  let middleware :=
    {| middleware_config := deps_get "config" args; middleware_logger := logger |} in
  let app := [RouterHandler router; NotFoundHandler middleware; ErrorHandler middleware] in
  let options := {| listen_host := ""; listen_port := 0 |} in
  let hook := {| hook_fn := StopServerFn server; hook_logger := logger |} in
  let lifecycle := deps_get "lifecycle" args in
  let out := rootHttpRouterFactory_factory E server args w in
  DefaultRootHttpRouter_create E (ext w) = (router, e1) ->
  createHttpServer E app options logger e1 = (Ok srv, e2) ->
  server_start E srv (lifecycle_addShutdownHook E lifecycle hook e2) = (Throw err, e3) ->
  out = (Throw err, {| ext := e3; heap := <[server := Some srv]> (heap w) |},
         [CallRouterCreate; CallCreateHttpServer app options logger;
          CallAddShutdownHook lifecycle hook; CallServerStart srv])
  /\ call_hook_fn E (hook_fn hook) (state_of out)
     = (fst (server_stop E srv e3),
        {| ext := snd (server_stop E srv e3); heap := <[server := Some srv]> (heap w) |},
        [CallServerStop srv]).
Proof.
  intros logger middleware app options hook lifecycle out Hrouter Hcreate Hstart.
  subst logger middleware app options hook lifecycle out.
  rewrite rootHttpRouterFactory_factory_run. cbv zeta.
  rewrite Hrouter. cbn [fst snd]. rewrite Hcreate, Hstart.
  split; [reflexivity |].
  unfold state_of. cbn [fst snd hook_fn]. unfold call_hook_fn. run_prog.
  rewrite cell_insert_same. cbn.
  destruct (server_stop E srv e3); reflexivity.
Qed.

(** X5: the discovery factory after the root http router factory, as the
    declared dependency orders them: once the router factory of a call has
    resolved, the discovery factory of the same call resolves to a provider
    of a discovery for the port of the server the router factory created,
    and the accessor returns that server. *)
Theorem discoveryFactory_after_rootHttpRouterFactory
    (server : loc) (args args' : Deps) (w : Fw (Ext E))
    (router : RootHttpRouter) (srv : ExtendedHttpServer) (e1 e2 e3 : Ext E) :
  let logger := LoggerChild (deps_get "rootLogger" args) [("service", "rootHttpRouter")] in
  let middleware :=
    {| middleware_config := deps_get "config" args; middleware_logger := logger |} in
  let app := [RouterHandler router; NotFoundHandler middleware; ErrorHandler middleware] in
  let options := {| listen_host := ""; listen_port := 0 |} in
  let hook := {| hook_fn := StopServerFn server; hook_logger := logger |} in
  let lifecycle := deps_get "lifecycle" args in
  let w1 := state_of (call E (RootHttpRouterFn server) args w) in
  let port := server_port E srv e3 in
  DefaultRootHttpRouter_create E (ext w) = (router, e1) ->
  createHttpServer E app options logger e1 = (Ok srv, e2) ->
  server_start E srv (lifecycle_addShutdownHook E lifecycle hook e2) = (Ok tt, e3) ->
  call E (DiscoveryFn server) args' w1
  = (Ok (JsFunction (AsyncConst (JsDiscovery
       {| discovery_baseUrl := "http://localhost:" +:+ pretty port;
          discovery_listen_port := port |}))),
     w1, [CallServerPort srv])
  /\ get_server E server w1 = (Ok srv, w1, []).
Proof.
  intros logger middleware app options hook lifecycle w1 port Hrouter Hcreate Hstart.
  subst logger middleware app options hook lifecycle w1 port.
  cbn [call]. rewrite rootHttpRouterFactory_factory_run. cbv zeta.
  rewrite Hrouter. cbn [fst snd]. rewrite Hcreate, Hstart.
  unfold state_of. cbn [fst snd].
  unfold discoveryFactory_factory, get_server. run_prog.
  rewrite cell_insert_same. cbn. split; reflexivity.
Qed.

End RouterFactory.

Lemma rootHttpRouterFactory_factory_create_rejects_witness :
  result_of (rootHttpRouterFactory_factory (simE_rejecting true false) 0 sim_deps
               (fw (state_of (declare_server simE (sim_world true false [])))))
    = Throw (NewError "listen EACCES") /\
  cell 0 (state_of (rootHttpRouterFactory_factory (simE_rejecting true false) 0 sim_deps
               (fw (state_of (declare_server simE (sim_world true false []))))))
    = None.
Proof.
  rewrite (rootHttpRouterFactory_factory_create_rejects (simE_rejecting true false) 0 sim_deps
             (fw (state_of (declare_server simE (sim_world true false []))))
             (Router 0) (NewError "listen EACCES") _ _ eq_refl eq_refl).
  split; reflexivity.
Defined.

Lemma rootHttpRouterFactory_factory_start_rejects_witness :
  result_of (rootHttpRouterFactory_factory (simE_rejecting false true) 0 sim_deps
               (fw (sim_world true false [])))
    = Throw (NewError "listen EADDRINUSE") /\
  log_of (call_hook_fn (simE_rejecting false true) (StopServerFn 0)
            (state_of (rootHttpRouterFactory_factory (simE_rejecting false true) 0 sim_deps
                         (fw (sim_world true false [])))))
    = [CallServerStop (HttpServer 1)].
Proof.
  destruct (rootHttpRouterFactory_factory_start_rejects (simE_rejecting false true) 0 sim_deps
              (fw (sim_world true false [])) (Router 0) (HttpServer 1)
              (NewError "listen EADDRINUSE") _ _ _ eq_refl eq_refl eq_refl) as [Hout Hhook].
  cbn [hook_fn] in Hhook. rewrite Hhook, Hout. split; reflexivity.
Defined.

Lemma discoveryFactory_after_rootHttpRouterFactory_witness :
  result_of (call simE (DiscoveryFn 0) []
               (state_of (call simE (RootHttpRouterFn 0) sim_deps (fw (sim_world true false [])))))
  = Ok (JsFunction (AsyncConst (JsDiscovery
          {| discovery_baseUrl := "http://localhost:40001";
             discovery_listen_port := 40001 |}))).
Proof.
  rewrite (proj1 (discoveryFactory_after_rootHttpRouterFactory simE 0 sim_deps []
                    (fw (sim_world true false [])) (Router 0) (HttpServer 1) _ _ _
                    eq_refl eq_refl eq_refl)).
  reflexivity.
Defined.

(** ** Starting a backend and tearing down, call by call *)

Lemma result_of_bind {S A B} (m : Prog S A) (k : A -> Prog S B) s :
  result_of (bind m k s) =
  match result_of (m s) with
  | Ok a => result_of (k a (state_of (m s)))
  | Throw e => Throw e
  end.
Proof.
  unfold bind, result_of, state_of. destruct (m s) as [[[a | e] s1] log1]; cbn; [| reflexivity].
  now destruct (k a s1) as [[r s2] log2].
Qed.

Lemma state_of_bind {S A B} (m : Prog S A) (k : A -> Prog S B) s :
  state_of (bind m k s) =
  match result_of (m s) with
  | Ok a => state_of (k a (state_of (m s)))
  | Throw e => state_of (m s)
  end.
Proof.
  unfold bind, result_of, state_of. destruct (m s) as [[[a | e] s1] log1]; cbn; [| reflexivity].
  now destruct (k a s1) as [[r s2] log2].
Qed.


Lemma for_each_cons {S A} (x : A) (l : list A) (body : A -> Prog S unit) :
  for_each (x :: l) body = bind (body x) (fun _ => for_each l body).
Proof. reflexivity. Qed.

Lemma keeps_cells_ret {Ext A} (a : A) : keeps_cells (Ext := Ext) (ret a).
Proof. intros w. reflexivity. Qed.

Lemma keeps_cells_bind {Ext A B} (m : Prog (World Ext) A) (k : A -> Prog (World Ext) B) :
  keeps_cells m -> (forall a, keeps_cells (k a)) -> keeps_cells (bind m k).
Proof.
  intros Hm Hk w. rewrite state_of_bind. specialize (Hm w).
  destruct (result_of (m w)); [rewrite Hk |]; exact Hm.
Qed.

Lemma keeps_cells_for_each {Ext A} (l : list A) (body : A -> Prog (World Ext) unit) :
  (forall x, keeps_cells (body x)) -> keeps_cells (for_each l body).
Proof.
  intros Hbody. induction l as [| x l IH]; cbn [for_each].
  - apply keeps_cells_ret.
  - apply keeps_cells_bind; [apply Hbody | intros _; exact IH].
Qed.

Section Calls.
Variable E : Externals.
Variable F : Framework (Ext E).

(** A call answered by a collaborator that cannot reach the cells. *)
Lemma call_on_ext_run {A} (c : Call) (answer : Ext E -> Result A * Ext E) (w : World (Ext E)) :
  in_fw E (call_out c (on_ext answer)) w
  = (fst (answer (ext (fw w))),
     set_fw (set_ext (snd (answer (ext (fw w)))) (fw w)) w,
     [c]).
Proof.
  unfold in_fw, zoom, call_out, on_ext. now destruct (answer (ext (fw w))).
Qed.

Lemma keeps_cells_call_on_ext {A} (c : Call) (answer : Ext E -> Result A * Ext E) :
  keeps_cells (in_fw E (call_out c (on_ext answer))).
Proof. intros w. now rewrite call_on_ext_run. Qed.

Lemma backend_start_run (backend : Backend) (w : World (Ext E)) :
  in_fw E (call_out (CallBackendStart backend) (backend_start F backend)) w
  = (fst (backend_start F backend (fw w)),
     set_fw (snd (backend_start F backend (fw w))) w,
     [CallBackendStart backend]).
Proof.
  unfold in_fw, zoom, call_out. now destruct (backend_start F backend (fw w)).
Qed.




Lemma cell_same_heap (l : loc) (w w' : Fw (Ext E)) :
  heap w = heap w' -> cell l w = cell l w'.
Proof. unfold cell. now intros ->. Qed.

Lemma get_server_undefined (server : loc) (w : Fw (Ext E)) :
  cell server w = None ->
  result_of (get_server E server w) = Throw (NewError "TestBackend server is not available").
Proof. intros Hcell. unfold get_server. run_prog. now rewrite Hcell. Qed.

Lemma discoveryFactory_factory_undefined (server : loc) (args : Deps) (w : Fw (Ext E)) :
  cell server w = None ->
  result_of (discoveryFactory_factory E server args w)
  = Throw (NewError "Test server not started yet").
Proof. intros Hcell. unfold discoveryFactory_factory. run_prog. now rewrite Hcell. Qed.

Lemma for_each_add_ok (backend : Backend) (features : list BackendFeature) :
  (forall b f e, fst (backend_add F b f e) = Ok tt) ->
  forall w : World (Ext E),
    result_of
      (for_each features (fun feature =>
         in_fw E (call_out (CallBackendAdd backend feature)
                    (on_ext (backend_add F backend feature)))) w) = Ok tt.
Proof.
  intros Hadd. induction features as [| feature rest IH]; intros w; [reflexivity |].
  rewrite for_each_cons, result_of_bind, call_on_ext_run. outs. rewrite Hadd. apply IH.
Qed.

(** [startTestBackend] is its two parts, one after the other. *)
Lemma startTestBackend_from_setup (options : TestBackendOptions) (w : World (Ext E)) :
  startTestBackend E F options w
  = bind (startTestBackend_setup E F options)
         (fun sb => startTestBackend_finish E F (fst sb) (snd sb)) w.
Proof.
  symmetry. unfold startTestBackend, startTestBackend_setup, startTestBackend_finish.
  cbv zeta.
  rewrite bind_assoc. apply bind_ext. intros server w0.
  rewrite bind_assoc. apply bind_ext. intros backend w1.
  rewrite bind_assoc. apply bind_ext. intros _ w2.
  rewrite bind_assoc. apply bind_ext. intros _ w3.
  rewrite bind_assoc. apply bind_ext. intros _ w4.
  rewrite bind_ret_l. reflexivity.
Qed.

Lemma startTestBackend_setup_server
    (options : TestBackendOptions) (w w1 : World (Ext E))
    (server : loc) (backend : Backend) (log1 : list Call) :
  startTestBackend_setup E F options w = (Ok (server, backend), w1, log1) ->
  server = next_cell w.
Proof.
  unfold startTestBackend_setup.
  rewrite (bind_ok _ _ _ _ _ _ (declare_server_run E w)).
  intros H. apply (f_equal result_of) in H. revert H. outs. intros H.
  apply bind_result_ok in H as (b & _ & H & _).
  apply bind_result_ok in H as ([] & _ & H & _).
  apply bind_result_ok in H as ([] & _ & H & _).
  apply bind_result_ok in H as ([] & _ & H & _).
  now injection H as <- _.
Qed.

(** X7: a run of [startTestBackend] in which the backend was created and
    every feature added, and in which [backend.start()] resolves and leaves
    the variable [server] of the call undefined (the root http router
    factory of the call was not run), rejects with the error of the
    accessor, "TestBackend server is not available": the accessor is read
    when the result is built.  The calls of the run end with the start of
    the backend, and the state is the one the start left. *)
Theorem startTestBackend_rejects_without_server
    (options : TestBackendOptions) (w w1 : World (Ext E))
    (server : loc) (backend : Backend) (log1 : list Call) (f2 : Fw (Ext E)) :
  startTestBackend_setup E F options w = (Ok (server, backend), w1, log1) ->
  backend_start F backend (fw w1) = (Ok tt, f2) ->
  cell server f2 = None ->
  server = next_cell w /\
  startTestBackend E F options w
  = (Throw (NewError "TestBackend server is not available"),
     set_fw f2 w1, log1 ++ [CallBackendStart backend]).
Proof.
  intros Hsetup Hstart Hcell.
  split; [exact (startTestBackend_setup_server options w w1 server backend log1 Hsetup) |].
  rewrite startTestBackend_from_setup, (bind_ok _ _ _ _ _ _ Hsetup).
  cbn [fst snd]. unfold startTestBackend_finish.
  assert (Hrun : in_fw E (call_out (CallBackendStart backend) (backend_start F backend)) w1
                 = (Ok tt, set_fw f2 w1, [CallBackendStart backend])).
  { rewrite backend_start_run. now rewrite Hstart. }
  rewrite (bind_ok _ _ _ _ _ _ Hrun).
  assert (Hget : in_fw E (get_server E server) (set_fw f2 w1)
                 = (Throw (NewError "TestBackend server is not available"),
                    set_fw f2 w1, [])).
  { unfold in_fw, get_server. run_prog. now rewrite Hcell. }
  rewrite (bind_throw _ _ _ _ _ _ Hget). outs. reflexivity.
Qed.

(** *** Teardown *)

(** X8: the teardown hook changes nothing but the registry (and what the
    [stop()] calls change): it keeps [registered], so the hook is not
    installed a second time afterwards; and run again, on the registry it
    has emptied, it makes no call at all and leaves the state as it is. *)
Theorem teardown_twice (w : World (Ext E)) :
  let w1 := state_of (call_test_hook E F StopBackendsHook w) in
  registered w1 = registered w /\
  next_cell w1 = next_cell w /\
  call_test_hook E F StopBackendsHook w1 = (Ok tt, w1, []).
Proof.
  intros w1. subst w1.
  destruct (call_test_hook_run E F w) as (w1 & printed & Hrun & _ & Hvars).
  rewrite Hrun. outs. unfold module_vars in Hvars. injection Hvars as Hn _ Hr.
  split; [exact Hr | split; [exact Hn | now apply call_test_hook_nothing]].
Qed.

(** X9: a backend that [startTestBackend] obtained is stopped by the next
    teardown, whether its start succeeded or not: the hook, run after the
    call, calls [stop()] on the backends registered before and then on this
    one. *)
Theorem startTestBackend_then_teardown
    (options : TestBackendOptions) (w : World (Ext E)) (backend : Backend) (e1 : Ext E) :
  createSpecializedBackend F
    (composedServices E (next_cell w) (default [] (opt_services options))) (ext (fw w))
  = (Ok backend, e1) ->
  stop_calls (log_of (call_test_hook E F StopBackendsHook
                        (state_of (startTestBackend E F options w))))
  = backendInstancesToCleanUp w ++ [backend].
Proof.
  intros Hcreate.
  destruct (startTestBackend_create E F options w) as (_ & _ & _ & Hreg).
  rewrite Hcreate in Hreg.
  destruct (call_test_hook_run E F (state_of (startTestBackend E F options w)))
    as (w1 & printed & Hrun & _ & _).
  rewrite Hrun. outs. rewrite stop_calls_teardown_log. exact Hreg.
Qed.

(** X10: the variable [server] of a call starts out [undefined], whatever
    the heap held before, and the declaration touches no other cell: in the
    state right after line 116 the accessor of the call throws and its
    discovery factory fails with "Test server not started yet". *)
Theorem declare_server_undefined (w : World (Ext E)) (args : Deps) :
  let server := next_cell w in
  let w1 := state_of (declare_server E w) in
  cell server (fw w1) = None /\
  (forall l, l <> server -> cell l (fw w1) = cell l (fw w)) /\
  result_of (get_server E server (fw w1))
    = Throw (NewError "TestBackend server is not available") /\
  result_of (call E (DiscoveryFn server) args (fw w1))
    = Throw (NewError "Test server not started yet").
Proof.
  intros server w1. subst w1 server.
  assert (Hcell : cell (next_cell w) (fw (state_of (declare_server E w))) = None).
  { cbn. apply cell_insert_same. }
  split; [exact Hcell | split; [| split]].
  - intros l Hl. cbn. unfold cell. cbn. rewrite lookup_insert_ne by congruence. reflexivity.
  - now apply get_server_undefined.
  - cbn [call]. now apply discoveryFactory_factory_undefined.
Qed.

End Calls.


Lemma startTestBackend_rejects_without_server_witness :
  result_of (startTestBackend simE simF_lazy no_options (sim_world true false []))
  = Throw (NewError "TestBackend server is not available").
Proof.
  pose proof (startTestBackend_rejects_without_server simE simF_lazy no_options
                (sim_world true false [])
                (state_of (startTestBackend_setup simE simF_lazy no_options
                             (sim_world true false [])))
                0 (BackendRef 0)
                (log_of (startTestBackend_setup simE simF_lazy no_options
                           (sim_world true false [])))
                _ eq_refl eq_refl eq_refl) as [_ Hrun].
  rewrite Hrun. reflexivity.
Defined.

Lemma startTestBackend_then_teardown_witness :
  stop_calls (log_of (call_test_hook simE simF StopBackendsHook
                        (state_of (startTestBackend simE simF no_options
                                     (sim_world true true [])))))
  = [] ++ [BackendRef 0].
Proof.
  exact (startTestBackend_then_teardown simE simF no_options (sim_world true true [])
           (BackendRef 0) _ eq_refl).
Defined.

Lemma startTestBackend_server_is_cell_witness :
  cell 0 (fw (state_of (startTestBackend simE simF no_options (sim_world true false []))))
  = Some (HttpServer 2).
Proof.
  refine (startTestBackend_server_is_cell simE simF no_options (sim_world true false [])
            {| tb_backend := BackendRef 0; tb_server := HttpServer 2 |} _).
  vm_compute. reflexivity.
Defined.

(** X12: when no backend is registered (no [startTestBackend] call since
    the module was loaded or since the last teardown), the teardown hook
    resolves without calling anything and without changing anything. *)
Theorem teardown_nothing_registered
    (E : Externals) (F : Framework (Ext E)) (w : World (Ext E)) :
  backendInstancesToCleanUp w = [] ->
  call_test_hook E F StopBackendsHook w = (Ok tt, w, []).
Proof. apply call_test_hook_nothing. Qed.

Lemma teardown_nothing_registered_witness :
  call_test_hook simE simF StopBackendsHook (sim_world true false [])
  = (Ok tt, sim_world true false [], []).
Proof.
  exact (teardown_nothing_registered simE simF (sim_world true false []) eq_refl).
Defined.
